(** * Second-order effects engine: a shallow embedding and its properties

    The development follows the two Python modules of the repository that
    carry the trading logic:

    - [second_order_ai.py]   (class [SecondOrderAI]): the signal generator,
      the strategy table and the response cache of the two collaborators;
    - [second_order_algo.py] (class [SecondOrderEffectsAlgorithm]): event
      detection, the graph-driven trades, position entry and the end-of-day
      sweep;

    and the [calculate_impact_score] table that
    [setup_quantconnect_project.py] ships as [supply_chain_mapper.py].

    Python floats are IEEE binary64 numbers and are embedded as Rocq's
    primitive floats, so every arithmetic step and comparison below is the
    one the interpreter performs.  Dictionaries whose iteration order the
    code observes are association lists in insertion order; the portfolio,
    whose order is never observed, and the response cache are [gmap]s. *)

Set Warnings "-inexact-float".
From Stdlib Require Import ZArith List Floats Lia Sorted Permutation.
From stdpp Require Import gmap strings list fin_maps pretty sorting.

Local Open Scope Z_scope.

(* ===================================================================== *)
(** * Python runtime pieces used by the code *)
(* ===================================================================== *)

Module Py.

(** ** [sorted(l, key=key, reverse=True)]

    CPython sorts with [<] on the keys only, the sort is stable, and
    [reverse=True] is implemented as: reverse the list, sort it
    ascending, reverse the result.  The ascending sort is modelled as a
    stable insertion sort; on keys that are totally ordered by [<] every
    stable sort returns the same list. *)
Section Sorted.
Context {A : Type} (key : A → float).

Fixpoint insort (x : A) (l : list A) : list A :=
  match l with
  | [] => [x]
  | y :: ys =>
      if (key y <? key x)%float then y :: insort x ys else x :: y :: ys
  end.

Definition sort_asc (l : list A) : list A := foldr insort [] l.

Definition sorted_reverse (l : list A) : list A :=
  reverse (sort_asc (reverse l)).
End Sorted.

(** ** [datetime] and [timedelta]

    A [datetime] is a count of microseconds; the difference of two is a
    [timedelta], normalised by Python into [days] (floor division by one
    day), [seconds] (the remainder below one day, in whole seconds, so
    always in 0..86399) and microseconds. *)
Definition second : Z := 1000000.
Definition day : Z := 86400 * second.

Definition days (delta : Z) : Z := delta / day.
Definition seconds (delta : Z) : Z := (delta mod day) / second.

(** ** [dict] with string keys, in insertion order *)
Section Dict.
Context {V : Type}.

Fixpoint get (k : string) (d : list (string * V)) : option V :=
  match d with
  | [] => None
  | (k', v) :: d' => if String.eqb k' k then Some v else get k d'
  end.

(** [d[k] = v]: an existing key keeps its place, a new one goes last. *)
Fixpoint set (k : string) (v : V) (d : list (string * V)) : list (string * V) :=
  match d with
  | [] => [(k, v)]
  | (k', v') :: d' =>
      if String.eqb k' k then (k, v) :: d' else (k', v') :: set k v d'
  end.

(** [del d[k]] (the code only deletes keys it has just iterated). *)
Fixpoint del (k : string) (d : list (string * V)) : list (string * V) :=
  match d with
  | [] => []
  | (k', v') :: d' =>
      if String.eqb k' k then d' else (k', v') :: del k d'
  end.
End Dict.

(** [x in l] for a list of strings. *)
Definition mem (x : string) (l : list string) : bool :=
  existsb (String.eqb x) l.

(** [s.lower()].  Strings are byte strings (UTF-8); only the ASCII capitals
    change.  Python also lowers other letters, to letters outside ASCII
    except for the Kelvin sign (to k) and the dotted capital I (to i and a
    combining dot); the code only searches lowered text for ASCII words
    without a k and in which no i is followed by a combining dot, so the
    searches below agree with Python's on every input. *)
Definition lower_char (c : Ascii.ascii) : Ascii.ascii :=
  let code := Ascii.nat_of_ascii c in
  if ((65 <=? code) && (code <=? 90))%nat
  then Ascii.ascii_of_nat (code + 32)
  else c.

Fixpoint lower (s : string) : string :=
  match s with
  | EmptyString => EmptyString
  | String c s' => String (lower_char c) (lower s')
  end.

(** [word in text] for strings: [word] occurs in [text] as a substring. *)
Fixpoint contains (word text : string) : bool :=
  String.prefix word text
  || match text with
     | EmptyString => false
     | String _ text' => contains word text'
     end.

End Py.

(* ===================================================================== *)
(** * second_order_ai.py *)
(* ===================================================================== *)

Module SecondOrderAI.

(** One affected entity, as the causal-mapping collaborator returns it
    (a JSON object read through its keys). *)
Record Entity := {
  ticker : string;
  relationship : string;
  impact_direction : string;
  impact_magnitude : float;
  confidence : float;
  time_lag_days : Z;
  rationale : string
}.

(** The dictionary [generate_trade_signals] builds for one entity. *)
Record Signal := {
  sig_ticker : string;
  action : string;
  strategy : string;
  size_multiplier : float;
  time_horizon : Z;
  stop_loss : float;
  take_profit : float;
  sig_rationale : string
}.

Definition _determine_strategy (entity : Entity) : string :=
  if (0.8 <? confidence entity)%float && (time_lag_days entity <? 5) then
    "DIRECT_EQUITY"
  else if (0.7 <? confidence entity)%float && (time_lag_days entity <? 10) then
    "OPTIONS_DIRECTIONAL"
  else if Py.mem (relationship entity) ["competitor"; "inverse"] then
    "PAIRS_TRADE"
  else
    "OPTIONS_SPREAD".

(** The body of the [if entity['confidence'] > 0.6] branch. *)
Definition signal_of (entity : Entity) : Signal := {|
  sig_ticker := ticker entity;
  action := if String.eqb (impact_direction entity) "positive" then "BUY" else "SELL";
  strategy := _determine_strategy entity;
  size_multiplier := (confidence entity * impact_magnitude entity)%float;
  time_horizon := time_lag_days entity;
  stop_loss := if (0.8 <? confidence entity)%float then 0.05%float else 0.03%float;
  take_profit := if (0.7 <? impact_magnitude entity)%float then 0.1%float else 0.07%float;
  sig_rationale := rationale entity
|}.

(** The inner loop: [for entity in entities: if ...: signals.append(signal)]. *)
Definition append_entities (signals : list Signal) (entities : list Entity) : list Signal :=
  fold_left
    (fun signals entity =>
       if (0.6 <? confidence entity)%float then signals ++ [signal_of entity]
       else signals)
    entities signals.

(** The outer loop over [second_order_map.items()]. *)
Definition candidate_signals (second_order_map : list (string * list Entity)) : list Signal :=
  fold_left
    (fun signals item => append_entities signals (snd item))
    second_order_map [].

Definition generate_trade_signals (second_order_map : list (string * list Entity)) : list Signal :=
  take 10 (Py.sorted_reverse size_multiplier (candidate_signals second_order_map)).

(** ** The response cache of [_query_perplexity] and [_query_claude] *)

Record CacheEntry := {
  response : string;
  timestamp : Z
}.

(** What the HTTP collaborator would answer if it were asked: the body
    text and the [datetime.now()] read when the answer is cached.
    [None] stands for a failed call (the exception leaves the method). *)
Record Reply := {
  content : string;
  received_at : Z
}.

(** The result of one query: the returned text ([None] when the call
    raised), the cache afterwards, and whether a request was posted. *)
Record Outcome := {
  returned : option string;
  cache_after : gmap string CacheEntry;
  posted : bool
}.

Section Query.
(** Python's [hash] on strings (salted per process, fixed within one). *)
Variable hash : string → Z.

Definition cached_query (prefix : string)
    (cache : gmap string CacheEntry) (now : Z) (prompt : string)
    (reply : option Reply) : Outcome :=
  let cache_key := prefix +:+ pretty (hash prompt) in
  let fresh :=
    match cache !! cache_key with
    | Some entry =>
        if Py.seconds (now - timestamp entry) <? 300 then Some (response entry)
        else None
    | None => None
    end in
  match fresh with
  | Some text => {| returned := Some text; cache_after := cache; posted := false |}
  | None =>
      match reply with
      | None => {| returned := None; cache_after := cache; posted := true |}
      | Some r =>
          {| returned := Some (content r);
             cache_after :=
               <[cache_key := {| response := content r; timestamp := received_at r |}]> cache;
             posted := true |}
      end
  end.

Definition _query_perplexity := cached_query "perplexity_".
Definition _query_claude := cached_query "claude_".
End Query.

End SecondOrderAI.

(* ===================================================================== *)
(** * supply_chain_mapper.py (written out by setup_quantconnect_project.py) *)
(* ===================================================================== *)

Module SupplyChainMapper.

(** The [weights] dictionary of [calculate_impact_score]. *)
Definition weights : list (string * float) :=
  [ ("suppliers", 0.7%float);
    ("customers", 0.6%float);
    ("competitors", 0.5%float);
    ("ecosystem", 0.4%float);
    ("infrastructure", 0.6%float);
    ("partners", 0.8%float) ].

Definition calculate_impact_score
    (primary_ticker affected_ticker relationship_type : string) : float :=
  default 0.3%float (Py.get relationship_type weights).

(** [self.relationships], the extended supply chain database. *)
Definition relationships : list (string * list (string * list string)) :=
  [ ("AAPL", [ ("suppliers", ["QCOM"; "SWKS"; "AVGO"; "QRVO"; "TSM"; "HON"; "STX"]);
               ("customers", ["VZ"; "T"; "TMUS"]);
               ("competitors", ["GOOGL"; "MSFT"; "SSNLF"]);
               ("ecosystem", ["UBER"; "LYFT"; "SQ"; "SHOP"]) ]);
    ("TSLA", [ ("suppliers", ["PANW"; "ALB"; "LAC"; "LTHM"; "NVDA"; "STM"]);
               ("competitors", ["F"; "GM"; "RIVN"; "LCID"; "NIO"; "XPEV"]);
               ("infrastructure", ["CHPT"; "BLNK"; "EVGO"]);
               ("battery", ["QS"; "SLDP"; "MVST"]) ]);
    ("NVDA", [ ("suppliers", ["TSM"; "ASML"; "AMAT"; "LRCX"; "KLAC"]);
               ("customers", ["MSFT"; "GOOGL"; "AMZN"; "META"; "TSLA"]);
               ("competitors", ["AMD"; "INTC"; "QCOM"]);
               ("related", ["SMCI"; "DELL"; "HPE"]) ]);
    ("MSFT", [ ("partners", ["NVDA"; "AMD"; "ORCL"]);
               ("competitors", ["AMZN"; "GOOGL"; "CRM"]);
               ("ecosystem", ["ADBE"; "NOW"; "TEAM"; "DOCU"]);
               ("hardware", ["DELL"; "HPQ"; "NTAP"]) ]) ].

(** [base_relations.get(category, [])] *)
Definition relations_get (category : string) (base_relations : list (string * list string))
    : list string :=
  default [] (Py.get category base_relations).

(** [get_affected_tickers] over a relationship database ([self.relationships]
    in the code); the result is the dictionary [affected], keys in the
    order they are assigned. *)
Definition get_affected_tickers_in
    (database : list (string * list (string * list string)))
    (primary_ticker event_type : string) : list (string * list string) :=
  match Py.get primary_ticker database with
  | None => []
  | Some base_relations =>
      let affected : list (string * list string) := [] in
      if Py.contains "earnings_beat" (Py.lower event_type) then
        let affected := Py.set "positive" (relations_get "suppliers" base_relations) affected in
        Py.set "negative" (relations_get "competitors" base_relations) affected
      else if Py.contains "supply_disruption" (Py.lower event_type) then
        let affected := Py.set "negative" (relations_get "customers" base_relations) affected in
        Py.set "positive" (relations_get "competitors" base_relations) affected
      else if Py.contains "innovation" (Py.lower event_type) then
        let affected := Py.set "positive" (relations_get "ecosystem" base_relations) affected in
        Py.set "negative" (relations_get "competitors" base_relations) affected
      else affected
  end.

Definition get_affected_tickers (primary_ticker event_type : string)
    : list (string * list string) :=
  get_affected_tickers_in relationships primary_ticker event_type.

End SupplyChainMapper.

(* ===================================================================== *)
(** * second_order_algo.py *)
(* ===================================================================== *)

Module Algo.

(** An entry of [second_order_positions]. *)
Record Position := {
  entry_time : Z;
  direction : string;
  reason : string;
  confidence : float
}.

(** A [StopMarketOrder(symbol, quantity, stopPrice)] ticket. *)
Record StopOrder := {
  order_symbol : string;
  order_quantity : Z;
  stop_price : float
}.

(** The [self.Debug] lines, one constructor per format string. *)
Inductive Message :=
| PrimaryEventDetected (symbol : string) (daily_return : float)
| MultiDayEvent (symbol : string) (five_day_return : float)
| SecondOrderLong (symbol reason : string) (adjusted_size : float)
| SecondOrderShort (symbol reason : string) (adjusted_size : float)
| ClosedPosition (symbol : string).

(** The algorithm object.  [Portfolio] holds the signed [Quantity] of
    every security; a holding is [Invested] when its quantity is not 0.
    [orders] and [debug] record the tickets submitted and the lines
    logged, oldest first.  ([active_events] is never read or written
    after [Initialize] and is left out.) *)
Record State := {
  supply_chains : list (string * list (string * list string));
  primary_movers : list string;
  max_positions : nat;
  position_size : float;
  second_order_multiplier : float;
  second_order_positions : list (string * Position);
  Portfolio : gmap string Z;
  Time : Z;
  orders : list StopOrder;
  debug : list Message
}.

(** What the engine answers when the algorithm asks: the market price,
    the unrealised profit of a holding, the quantity a [SetHoldings]
    call to a target fraction ends with (the market order is filled at
    once), and [History(symbols, periods, Resolution.Daily)] as the
    column of closes of each symbol (no rows: the empty list). *)
Record Engine := {
  Price : string → float;
  UnrealizedProfitPercent : gmap string Z → string → float;
  SetHoldings_quantity : gmap string Z → string → float → Z;
  History : list string → nat → string → list float
}.

(** A data slice: the symbols it has data for and those with a trade bar. *)
Record Slice := {
  slice_keys : list string;
  slice_bars : list string
}.

Definition ContainsKey (data : Slice) (symbol : string) : bool :=
  Py.mem symbol (slice_keys data).

(** ** Field updates *)

Definition with_Portfolio (p : gmap string Z) (st : State) : State :=
  {| supply_chains := supply_chains st; primary_movers := primary_movers st;
     max_positions := max_positions st; position_size := position_size st;
     second_order_multiplier := second_order_multiplier st;
     second_order_positions := second_order_positions st;
     Portfolio := p; Time := Time st; orders := orders st; debug := debug st |}.

Definition with_positions (d : list (string * Position)) (st : State) : State :=
  {| supply_chains := supply_chains st; primary_movers := primary_movers st;
     max_positions := max_positions st; position_size := position_size st;
     second_order_multiplier := second_order_multiplier st;
     second_order_positions := d;
     Portfolio := Portfolio st; Time := Time st; orders := orders st; debug := debug st |}.

Definition with_Time (t : Z) (st : State) : State :=
  {| supply_chains := supply_chains st; primary_movers := primary_movers st;
     max_positions := max_positions st; position_size := position_size st;
     second_order_multiplier := second_order_multiplier st;
     second_order_positions := second_order_positions st;
     Portfolio := Portfolio st; Time := t; orders := orders st; debug := debug st |}.

Definition with_orders (o : list StopOrder) (st : State) : State :=
  {| supply_chains := supply_chains st; primary_movers := primary_movers st;
     max_positions := max_positions st; position_size := position_size st;
     second_order_multiplier := second_order_multiplier st;
     second_order_positions := second_order_positions st;
     Portfolio := Portfolio st; Time := Time st; orders := o; debug := debug st |}.

Definition with_debug (m : list Message) (st : State) : State :=
  {| supply_chains := supply_chains st; primary_movers := primary_movers st;
     max_positions := max_positions st; position_size := position_size st;
     second_order_multiplier := second_order_multiplier st;
     second_order_positions := second_order_positions st;
     Portfolio := Portfolio st; Time := Time st; orders := orders st; debug := m |}.

(** ** Engine primitives *)

(** [self.Portfolio[symbol].Quantity] *)
Definition Quantity (st : State) (symbol : string) : Z :=
  default 0 (Portfolio st !! symbol).

(** [self.Portfolio[symbol].Invested] *)
Definition Invested (st : State) (symbol : string) : bool :=
  negb (Quantity st symbol =? 0).

(** [len([x for x in self.Portfolio.Values if x.Invested])] *)
Definition current_positions (st : State) : nat :=
  length (filter (fun x : string * Z => x.2 ≠ 0) (map_to_list (Portfolio st))).

Definition Debug (m : Message) (st : State) : State :=
  with_debug (debug st ++ [m]) st.

Definition SetHoldings (eng : Engine) (symbol : string) (fraction : float) (st : State) : State :=
  with_Portfolio
    (<[symbol := SetHoldings_quantity eng (Portfolio st) symbol fraction]> (Portfolio st)) st.

Definition StopMarketOrder (symbol : string) (quantity : Z) (stopPrice : float) (st : State) : State :=
  with_orders
    (orders st ++ [{| order_symbol := symbol; order_quantity := quantity; stop_price := stopPrice |}])
    st.

Definition Liquidate (symbol : string) (st : State) : State :=
  with_Portfolio (<[symbol := 0]> (Portfolio st)) st.

(** [self.AddEquity(ticker, ...)]: a flat holding for a new security. *)
Definition AddEquity (ticker : string) (st : State) : State :=
  match Portfolio st !! ticker with
  | Some _ => st
  | None => with_Portfolio (<[ticker := 0]> (Portfolio st)) st
  end.

(** ** Initialize *)

Definition initial_supply_chains : list (string * list (string * list string)) :=
  [ ("AAPL", [ ("suppliers", ["QCOM"; "SWKS"; "AVGO"; "QRVO"]);
               ("competitors", ["GOOGL"; "MSFT"; "AMZN"]);
               ("related", ["FOXC"; "LPL"; "AAOI"]) ]);
    ("TSLA", [ ("suppliers", ["PANW"; "ALB"; "LAC"; "LTHM"]);
               ("competitors", ["F"; "GM"; "RIVN"; "LCID"]);
               ("related", ["QS"; "CHPT"; "BLNK"]) ]);
    ("NVDA", [ ("suppliers", ["TSM"; "ASML"; "AMAT"; "LRCX"]);
               ("customers", ["MSFT"; "GOOGL"; "AMZN"; "META"]);
               ("competitors", ["AMD"; "INTC"]) ]) ].

Definition initial_primary_movers : list string :=
  ["AAPL"; "TSLA"; "NVDA"; "MSFT"; "AMZN"].

(** [all_related]: every ticker of every category of every chain. *)
Definition all_related (chains : list (string * list (string * list string))) : list string :=
  flat_map (fun chain => flat_map snd (snd chain)) chains.

Definition Initialize (start : Z) : State :=
  let st :=
    {| supply_chains := initial_supply_chains;
       primary_movers := initial_primary_movers;
       max_positions := 10;
       position_size := 0.1%float;
       second_order_multiplier := 0.6%float;
       second_order_positions := [];
       Portfolio := ∅;
       Time := start;
       orders := [];
       debug := [] |} in
  let st := fold_left (fun st ticker => AddEquity ticker st) initial_primary_movers st in
  fold_left (fun st ticker => AddEquity ticker st) (all_related initial_supply_chains) st.

(** ** ExecuteSecondOrderTrade *)

Definition ExecuteSecondOrderTrade (eng : Engine)
    (symbol direction reason : string) (confidence : float) (st : State) : State :=
  (* Skip if already have position *)
  if Invested st symbol then st
  else
    (* Check position limits *)
    if (max_positions st <=? current_positions st)%nat then st
    else
      let base_size := (position_size st * second_order_multiplier st)%float in
      let adjusted_size := (base_size * confidence)%float in
      let st :=
        if String.eqb direction "LONG" then
          let st := SetHoldings eng symbol adjusted_size st in
          let st := Debug (SecondOrderLong symbol reason adjusted_size) st in
          let current_price := Price eng symbol in
          StopMarketOrder symbol (- Quantity st symbol) (current_price * 0.95)%float st
        else if String.eqb direction "SHORT" then
          let st := SetHoldings eng symbol (- adjusted_size)%float st in
          let st := Debug (SecondOrderShort symbol reason adjusted_size) st in
          let current_price := Price eng symbol in
          StopMarketOrder symbol (Quantity st symbol) (current_price * 1.05)%float st
        else st in
      (* Track position *)
      with_positions
        (Py.set symbol
           {| entry_time := Time st; direction := direction;
              reason := reason; confidence := confidence |}
           (second_order_positions st))
        st.

(** ** TriggerSecondOrderTrades *)

(** [chain.get(category, [])] *)
Definition chain_get (category : string) (chain : list (string * list string)) : list string :=
  default [] (Py.get category chain).

(** One of the four [for ... in chain.get(...)] loops. *)
Definition trade_each (eng : Engine) (data : Slice) (tickers : list string)
    (direction reason : string) (confidence : float) (st : State) : State :=
  fold_left
    (fun st ticker =>
       if ContainsKey data ticker
       then ExecuteSecondOrderTrade eng ticker direction reason confidence st
       else st)
    tickers st.

Definition TriggerSecondOrderTrades (eng : Engine)
    (primary_symbol : string) (primary_move : float) (data : Slice) (st : State) : State :=
  match Py.get primary_symbol (supply_chains st) with
  | None => st
  | Some chain =>
      if (0 <? primary_move)%float then
        let st := trade_each eng data (chain_get "suppliers" chain) "LONG"
                    (primary_symbol +:+ " rally benefits supplier") 0.7%float st in
        trade_each eng data (chain_get "competitors" chain) "SHORT"
          (primary_symbol +:+ " rally hurts competitor") 0.5%float st
      else
        let st := trade_each eng data (chain_get "suppliers" chain) "SHORT"
                    (primary_symbol +:+ " decline hurts supplier") 0.6%float st in
        trade_each eng data (chain_get "competitors" chain) "LONG"
          (primary_symbol +:+ " decline helps competitor") 0.4%float st
  end.

(** ** OnData *)

Definition OnData (eng : Engine) (data : Slice) (st : State) : State :=
  fold_left
    (fun st symbol =>
       if negb (ContainsKey data symbol) then st
       else if Py.mem symbol (slice_bars data) then
         let daily_return := UnrealizedProfitPercent eng (Portfolio st) symbol in
         if (0.05 <? abs daily_return)%float then
           let st := Debug (PrimaryEventDetected symbol daily_return) st in
           TriggerSecondOrderTrades eng symbol daily_return data st
         else st
       else st)
    (primary_movers st) st.

(** ** AnalyzeSecondOrderOpportunities *)

(** [series.iloc[-k]] for k >= 1; [None] is the IndexError. *)
Definition iloc_neg (k : nat) (series : list float) : option float :=
  if (length series <? k)%nat then None
  else nth_error series (length series - k).

(** The body of the inner [for ticker in tickers] loop; every exception
    raised in it is swallowed by [except: continue]. *)
Definition analyze_ticker (eng : Engine) (primary_symbol : string)
    (multi_day_return : float) (category ticker : string) (st : State) : State :=
  let ticker_history := History eng [ticker] 20 ticker in
  match ticker_history with
  | [] => st
  | _ =>
      match iloc_neg 1 ticker_history, iloc_neg 5 ticker_history with
      | Some last_close, Some fifth_close =>
          let ticker_return := (last_close / fifth_close - 1)%float in
          let return_differential := (abs multi_day_return - abs ticker_return)%float in
          if (0.05 <? return_differential)%float then
            let direction := if (0 <? multi_day_return)%float then "LONG" else "SHORT" in
            let direction :=
              if String.eqb category "competitors"
              then (if String.eqb direction "LONG" then "SHORT" else "LONG")
              else direction in
            ExecuteSecondOrderTrade eng ticker direction
              ("Lagging " +:+ category +:+ " to " +:+ primary_symbol) 0.6%float st
          else st
      | _, _ => st
      end
  end.

Definition AnalyzeSecondOrderOpportunities (eng : Engine)
    (primary_symbol : string) (multi_day_return : float) (st : State) : State :=
  match Py.get primary_symbol (supply_chains st) with
  | None => st
  | Some chain =>
      fold_left
        (fun st item =>
           fold_left
             (fun st ticker =>
                analyze_ticker eng primary_symbol multi_day_return (fst item) ticker st)
             (snd item) st)
        chain st
  end.

(** ** DetectSecondOrderEffects *)

Definition DetectSecondOrderEffects (eng : Engine) (st : State) : State :=
  let history := History eng (primary_movers st) 5 in
  (* history.empty *)
  if forallb (fun symbol => match history symbol with [] => true | _ => false end)
       (primary_movers st)
  then st
  else
    fold_left
      (fun st symbol =>
         (* history.loc[symbol] raises KeyError when the symbol has no rows *)
         match history symbol with
         | [] => st
         | first_close :: _ =>
             let last_close := List.last (history symbol) first_close in
             let five_day_return := (last_close / first_close - 1)%float in
             if (0.10 <? abs five_day_return)%float then
               let st := Debug (MultiDayEvent symbol five_day_return) st in
               AnalyzeSecondOrderOpportunities eng symbol five_day_return st
             else st
         end)
      (primary_movers st) st.

(** ** OnEndOfDay *)

(** The first loop: the keys whose holding period is over 5 days. *)
Definition positions_to_close (st : State) : list string :=
  map fst
    (filter
       (fun item : string * Position => 5 < Py.days (Time st - entry_time item.2))
       (second_order_positions st)).

(** The body of the second loop. *)
Definition close_position (sym : string) (st : State) : State :=
  if Invested st sym then
    let st := Liquidate sym st in
    let st := Debug (ClosedPosition sym) st in
    with_positions (Py.del sym (second_order_positions st)) st
  else st.

Definition OnEndOfDay (symbol : string) (st : State) : State :=
  fold_left (fun st sym => close_position sym st) (positions_to_close st) st.

End Algo.


(* ===================================================================== *)
(** * Auxiliary definitions for the statements below *)
(* ===================================================================== *)

(** ** The order of binary64 numbers

    [SFcompare] on two numbers (neither a NaN) is the lexicographic
    comparison of their ranks: the class (-inf, negative, zero, positive,
    +inf), then exponent and mantissa, both negated for negative numbers. *)

Definition sf_rank (f : spec_float) : Z * Z * Z :=
  match f with
  | S754_zero _ => (0, 0, 0)
  | S754_infinity s => (if s then -2 else 2, 0, 0)
  | S754_nan => (0, 0, 0)
  | S754_finite s m e => if s then (-1, - e, Z.neg m) else (1, e, Z.pos m)
  end.

Definition lex3 (a b : Z * Z * Z) : comparison :=
  match a.1.1 ?= b.1.1 with
  | Eq => match a.1.2 ?= b.1.2 with
          | Eq => a.2 ?= b.2
          | c => c
          end
  | c => c
  end.

Definition rank (x : float) : Z * Z * Z := sf_rank (Prim2SF x).

(** ** Orders on keyed elements *)

Definition ascending {A : Type} (key : A → float) (a b : A) : Prop :=
  (key a <=? key b)%float = true.

Definition descending {A : Type} (key : A → float) (a b : A) : Prop :=
  (key b <=? key a)%float = true.

(** The key of an element is a number (not a NaN). *)
Definition is_number {A : Type} (key : A → float) (a : A) : Prop :=
  is_nan (key a) = false.

(** ** The signal generator's input, flattened

    The records of a category-to-records mapping in iteration order
    (category by category, each category's records in list order), and
    those among them that pass the confidence threshold. *)

Definition records (second_order_map : list (string * list SecondOrderAI.Entity))
    : list SecondOrderAI.Entity :=
  flat_map snd second_order_map.

Definition qualifying (second_order_map : list (string * list SecondOrderAI.Entity))
    : list SecondOrderAI.Entity :=
  filter (fun e => (0.6 <? SecondOrderAI.confidence e)%float = true)
    (records second_order_map).

(** The size multiplier of a record is a number (not a NaN); it is for
    every record whose confidence and impact magnitude lie in [0,1]. *)
Definition numeric (e : SecondOrderAI.Entity) : Prop :=
  is_nan (SecondOrderAI.confidence e * SecondOrderAI.impact_magnitude e)%float = false.

(** Descending order of size multiplier. *)
Definition by_size_desc (a b : SecondOrderAI.Signal) : Prop :=
  (SecondOrderAI.size_multiplier b <=? SecondOrderAI.size_multiplier a)%float = true.

(** The signals of a list whose size multiplier equals [k]. *)
Definition with_size (k : float) (l : list SecondOrderAI.Signal) : list SecondOrderAI.Signal :=
  filter (fun s => (SecondOrderAI.size_multiplier s =? k)%float = true) l.

(** ** Scenario data *)

(** Ticker C listed under two categories, both records above the threshold. *)
Definition C_as_supplier : SecondOrderAI.Entity :=
  {| SecondOrderAI.ticker := "C"; SecondOrderAI.relationship := "supplier";
     SecondOrderAI.impact_direction := "positive";
     SecondOrderAI.impact_magnitude := 0.8; SecondOrderAI.confidence := 0.9;
     SecondOrderAI.time_lag_days := 1; SecondOrderAI.rationale := "ships parts" |}.

Definition C_as_customer : SecondOrderAI.Entity :=
  {| SecondOrderAI.ticker := "C"; SecondOrderAI.relationship := "customer";
     SecondOrderAI.impact_direction := "positive";
     SecondOrderAI.impact_magnitude := 0.5; SecondOrderAI.confidence := 0.7;
     SecondOrderAI.time_lag_days := 3; SecondOrderAI.rationale := "buys product" |}.

Definition twice_listed : list (string * list SecondOrderAI.Entity) :=
  [ ("supply_chain", [C_as_supplier]); ("customers", [C_as_customer]) ].

(** Eleven records above the threshold, all with confidence 0.9; the
    records of T1 and T3 have the same impact magnitude. *)
Definition supplier (name : string) (magnitude : float) : SecondOrderAI.Entity :=
  {| SecondOrderAI.ticker := name; SecondOrderAI.relationship := "supplier";
     SecondOrderAI.impact_direction := "positive";
     SecondOrderAI.impact_magnitude := magnitude; SecondOrderAI.confidence := 0.9;
     SecondOrderAI.time_lag_days := 1; SecondOrderAI.rationale := "" |}.

Definition eleven_candidates : list (string * list SecondOrderAI.Entity) :=
  [ ("supply_chain",
      [ supplier "T1" 0.5; supplier "T2" 0.9; supplier "T3" 0.5; supplier "T4" 0.8 ]);
    ("competitive",
      [ supplier "T5" 0.7; supplier "T6" 0.6; supplier "T7" 0.4; supplier "T8" 0.3 ]);
    ("macro",
      [ supplier "T9" 0.2; supplier "T10" 0.1; supplier "T11" 0.95 ]) ].

(** The entity of the DIRECT_EQUITY scenario. *)
Definition entity_C (relationship rationale : string) : SecondOrderAI.Entity :=
  {| SecondOrderAI.ticker := "C"; SecondOrderAI.relationship := relationship;
     SecondOrderAI.impact_direction := "positive";
     SecondOrderAI.impact_magnitude := 0.9; SecondOrderAI.confidence := 0.85;
     SecondOrderAI.time_lag_days := 2; SecondOrderAI.rationale := rationale |}.

(** ** What the engine does to the algorithm

    The engine drives the algorithm through its callbacks: a data slice
    ([OnData]), the scheduled 9:45 function ([DetectSecondOrderEffects]),
    the end of the day ([OnEndOfDay]), and the clock ([self.Time]).  A
    direct call of [ExecuteSecondOrderTrade] is an event too, so that
    statements over all event sequences cover every attempt to open a
    position. *)

Inductive Event :=
| DataEvent (eng : Algo.Engine) (data : Algo.Slice)
| ScheduledEvent (eng : Algo.Engine)
| EndOfDayEvent (symbol : string)
| TradeEvent (eng : Algo.Engine) (symbol direction reason : string) (confidence : float)
| ClockEvent (now : Z).

Definition step (ev : Event) (st : Algo.State) : Algo.State :=
  match ev with
  | DataEvent eng data => Algo.OnData eng data st
  | ScheduledEvent eng => Algo.DetectSecondOrderEffects eng st
  | EndOfDayEvent symbol => Algo.OnEndOfDay symbol st
  | TradeEvent eng symbol direction reason confidence =>
      Algo.ExecuteSecondOrderTrade eng symbol direction reason confidence st
  | ClockEvent now => Algo.with_Time now st
  end.

Definition run (evs : list Event) (st : Algo.State) : Algo.State :=
  fold_left (fun st ev => step ev st) evs st.

(** One evaluation cycle: the data callback, then the scheduled function. *)
Definition cycle (eng : Algo.Engine) (data : Algo.Slice) (st : Algo.State) : Algo.State :=
  Algo.DetectSecondOrderEffects eng (Algo.OnData eng data st).

(** ** Primary events in the log *)

Definition is_intraday (symbol : string) (m : Algo.Message) : bool :=
  match m with
  | Algo.PrimaryEventDetected s _ => String.eqb s symbol
  | _ => false
  end.

Definition is_multiday (symbol : string) (m : Algo.Message) : bool :=
  match m with
  | Algo.MultiDayEvent s _ => String.eqb s symbol
  | _ => false
  end.

Definition count (f : Algo.Message → bool) (log : list Algo.Message) : nat :=
  length (List.filter f log).

(** The primary events of [symbol] in a log, of either rule. *)
Definition primary_events (symbol : string) (log : list Algo.Message) : nat :=
  (count (is_intraday symbol) log + count (is_multiday symbol) log)%nat.

(** The multi-day rule, as [DetectSecondOrderEffects] evaluates it. *)
Definition five_day_return (closes : list float) : option float :=
  match closes with
  | [] => None
  | first_close :: _ => Some (List.last closes first_close / first_close - 1)%float
  end.

Definition multiday_fires (eng : Algo.Engine) (st : Algo.State) (symbol : string) : bool :=
  match five_day_return (Algo.History eng (Algo.primary_movers st) 5 symbol) with
  | Some r => (0.10 <? abs r)%float
  | None => false
  end.

(** ** Stop and target levels a signal would ask for

    The levels of the claim about entries: the stop on the losing side of
    the entry price by [stop_loss], the target on the winning side by
    [take_profit], sides swapped for SELL. *)
Definition signal_stop_level (sg : SecondOrderAI.Signal) (price : float) : float :=
  if String.eqb (SecondOrderAI.action sg) "BUY"
  then (price * (1 - SecondOrderAI.stop_loss sg))%float
  else (price * (1 + SecondOrderAI.stop_loss sg))%float.

Definition signal_target_level (sg : SecondOrderAI.Signal) (price : float) : float :=
  if String.eqb (SecondOrderAI.action sg) "BUY"
  then (price * (1 + SecondOrderAI.take_profit sg))%float
  else (price * (1 - SecondOrderAI.take_profit sg))%float.

Definition has_level (level : float) (placed : list Algo.StopOrder) : bool :=
  existsb (fun o => (Algo.stop_price o =? level)%float) placed.

(** The position entry a signal leads to. *)
Definition signal_direction (sg : SecondOrderAI.Signal) : string :=
  if String.eqb (SecondOrderAI.action sg) "BUY" then "LONG" else "SHORT".

(** ** Scenario data for the algorithm *)

Definition clock (days hours minutes : Z) : Z :=
  days * Py.day + (hours * 3600 + minutes * 60) * Py.second.

(** An engine with every price at 100, fills of [lot] shares (sold short
    for a negative target), an unrealised profit of [unrealized] on every
    invested holding (none on a flat one), and the given daily closes. *)
Definition broker (lot : Z) (unrealized : float) (closes : string → list float) : Algo.Engine :=
  {| Algo.Price := fun _ => 100%float;
     Algo.UnrealizedProfitPercent :=
       fun portfolio symbol =>
         if default 0 (portfolio !! symbol) =? 0 then 0%float else unrealized;
     Algo.SetHoldings_quantity :=
       fun _ _ fraction => if (fraction <? 0)%float then - lot else lot;
     Algo.History := fun _ _ symbol => closes symbol |}.

(** AAPL up 12 percent over the five closes, everything else flat. *)
Definition aapl_rally (symbol : string) : list float :=
  if String.eqb symbol "AAPL"
  then [100; 101; 102; 103; 112]%float
  else [100; 100; 100; 100; 100]%float.

Definition flat_closes (symbol : string) : list float :=
  [100; 100; 100; 100; 100]%float.

(** ** Counting holdings, and what the trading paths leave alone *)

(** The number of invested holdings of a portfolio. *)
Definition invested (m : gmap string Z) : nat :=
  length (filter (fun x : string * Z => x.2 ≠ 0) (map_to_list m)).

Definition one (b : bool) : nat := if b then 1%nat else 0%nat.

(** The fields no handler writes. *)
Definition same_settings (st st' : Algo.State) : Prop :=
  Algo.supply_chains st' = Algo.supply_chains st
  ∧ Algo.primary_movers st' = Algo.primary_movers st
  ∧ Algo.max_positions st' = Algo.max_positions st
  ∧ Algo.position_size st' = Algo.position_size st
  ∧ Algo.second_order_multiplier st' = Algo.second_order_multiplier st.

(** Both primary-event counts of every symbol are the same in two logs. *)
Definition same_primary_events (st st' : Algo.State) : Prop :=
  ∀ symbol,
    count (is_intraday symbol) (Algo.debug st') = count (is_intraday symbol) (Algo.debug st)
    ∧ count (is_multiday symbol) (Algo.debug st') = count (is_multiday symbol) (Algo.debug st).

(** What every trading path guarantees: settings and clock kept, the cap
    respected if it was, no primary event logged. *)
Definition trades_only (st st' : Algo.State) : Prop :=
  same_settings st st'
  ∧ Algo.Time st' = Algo.Time st
  ∧ ((Algo.current_positions st ≤ Algo.max_positions st)%nat →
     (Algo.current_positions st' ≤ Algo.max_positions st')%nat)
  ∧ same_primary_events st st'.

(** Settings kept, and the cap respected afterwards if it was before. *)
Definition keeps_cap (st st' : Algo.State) : Prop :=
  same_settings st st'
  ∧ ((Algo.current_positions st ≤ Algo.max_positions st)%nat →
     (Algo.current_positions st' ≤ Algo.max_positions st')%nat).

(** The scheduled 9:45 run on the first day with AAPL up 12 percent: the
    ten related names of AAPL lag and are all entered. *)
Definition first_morning : list Event :=
  [ ClockEvent (clock 0 9 45); ScheduledEvent (broker 40 0 aapl_rally) ].

(** The signal of [C_as_customer] (BUY, stop loss 0.03, take profit 0.07)
    entered at a price of 100, and the orders that entry leaves. *)
Definition customer_signal : SecondOrderAI.Signal :=
  SecondOrderAI.signal_of C_as_customer.

Definition customer_entry_orders : list Algo.StopOrder :=
  Algo.orders
    (Algo.ExecuteSecondOrderTrade (broker 40 0 flat_closes)
       (SecondOrderAI.sig_ticker customer_signal)
       (signal_direction customer_signal)
       (SecondOrderAI.sig_rationale customer_signal)
       (SecondOrderAI.confidence C_as_customer)
       (Algo.AddEquity "C" (Algo.Initialize 0))).

(** ** The graph scenario: X with supplier A and competitor B *)

Definition xab_state : Algo.State :=
  {| Algo.supply_chains := [ ("X", [ ("suppliers", ["A"]); ("competitors", ["B"]) ]) ];
     Algo.primary_movers := ["X"];
     Algo.max_positions := 10;
     Algo.position_size := 0.1%float;
     Algo.second_order_multiplier := 0.6%float;
     Algo.second_order_positions := [];
     Algo.Portfolio := <["X" := 0]> (<["A" := 0]> (<["B" := 0]> ∅));
     Algo.Time := clock 0 10 0;
     Algo.orders := [];
     Algo.debug := [] |}.

Definition xab_slice : Algo.Slice :=
  {| Algo.slice_keys := ["X"; "A"; "B"]; Algo.slice_bars := ["X"; "A"; "B"] |}.

(** The two records the graph-only fallback of the specification would
    emit for supplier [A] and competitor [B] after a positive move. *)
Definition fallback_records (A B : string) : list (string * list SecondOrderAI.Entity) :=
  [ ("suppliers",
      [ {| SecondOrderAI.ticker := A; SecondOrderAI.relationship := "supplier";
           SecondOrderAI.impact_direction := "positive";
           SecondOrderAI.impact_magnitude := 0.7; SecondOrderAI.confidence := 0.5;
           SecondOrderAI.time_lag_days := 0; SecondOrderAI.rationale := "" |} ]);
    ("competitors",
      [ {| SecondOrderAI.ticker := B; SecondOrderAI.relationship := "competitor";
           SecondOrderAI.impact_direction := "negative";
           SecondOrderAI.impact_magnitude := 0.5; SecondOrderAI.confidence := 0.5;
           SecondOrderAI.time_lag_days := 0; SecondOrderAI.rationale := "" |} ]) ].

(** The entry [ExecuteSecondOrderTrade] records for an accepted trade. *)
Definition tracked (st : Algo.State) (direction reason : string) (confidence : float)
    : Algo.Position :=
  {| Algo.entry_time := Algo.Time st; Algo.direction := direction;
     Algo.reason := reason; Algo.confidence := confidence |}.

(** The fraction of the portfolio an entry of the given confidence asks
    for: [adjusted_size] of [ExecuteSecondOrderTrade]. *)
Definition entry_size (st : Algo.State) (confidence : float) : float :=
  (Algo.position_size st * Algo.second_order_multiplier st * confidence)%float.

(** The quantities [SetHoldings] reaches on the graph path after a rally:
    supplier [A] is bought first, at [entry_size st 0.7] of the portfolio;
    competitor [B] is then sold, at minus [entry_size st 0.5], on the
    portfolio that already holds [A]. *)
Definition supplier_fill (eng : Algo.Engine) (st : Algo.State) (A : string) : Z :=
  Algo.SetHoldings_quantity eng (Algo.Portfolio st) A (entry_size st 0.7).

Definition competitor_fill (eng : Algo.Engine) (st : Algo.State) (A B : string) : Z :=
  Algo.SetHoldings_quantity eng
    (<[A := supplier_fill eng st A]> (Algo.Portfolio st)) B (- entry_size st 0.5)%float.

(** ** The cycle in which both rules fire for AAPL

    An account that holds 100 AAPL, 6 percent in profit, on a morning on
    which AAPL is also up 12 percent over its last five closes. *)
Definition holding_aapl : Algo.State :=
  Algo.with_Portfolio (<["AAPL" := 100]> (Algo.Portfolio (Algo.Initialize 0)))
    (Algo.with_Time (clock 0 9 45) (Algo.Initialize 0)).

Definition morning_slice : Algo.Slice :=
  {| Algo.slice_keys := ["AAPL"; "QCOM"; "GOOGL"];
     Algo.slice_bars := ["AAPL"; "QCOM"; "GOOGL"] |}.

(** The loop bodies of [DetectSecondOrderEffects] and [OnData]. *)
Definition detect_body (eng : Algo.Engine) (history : string → list float)
    (st : Algo.State) (symbol : string) : Algo.State :=
  match history symbol with
  | [] => st
  | first_close :: _ =>
      let last_close := List.last (history symbol) first_close in
      let five_day_return := (last_close / first_close - 1)%float in
      if (0.10 <? abs five_day_return)%float then
        let st := Algo.Debug (Algo.MultiDayEvent symbol five_day_return) st in
        Algo.AnalyzeSecondOrderOpportunities eng symbol five_day_return st
      else st
  end.

Definition fires_on (history : string → list float) (symbol : string) : bool :=
  match five_day_return (history symbol) with
  | Some r => (0.10 <? abs r)%float
  | None => false
  end.

(** ** The first week of a position

    The entries of [first_morning] (day 0, 9:45) followed by the
    end-of-day sweeps, at 15:50, of the given days. *)
Definition sweep (d : Z) : list Event :=
  [ ClockEvent (clock d 15 50); EndOfDayEvent "SPY" ].

Definition through_day_five : list Event :=
  first_morning ++ flat_map sweep [0; 1; 2; 3; 4; 5].

Definition through_day_six : list Event :=
  through_day_five ++ sweep 6.

(** ** Named states of the scenarios *)

Definition xab_after : Algo.State :=
  Algo.TriggerSecondOrderTrades (broker 40 0 flat_closes) "X" 0.06 xab_slice xab_state.

Definition both_fire : Algo.Engine := broker 40 0.06 aapl_rally.

Definition after_data : Algo.State := Algo.OnData both_fire morning_slice holding_aapl.

Definition after_cycle : Algo.State := cycle both_fire morning_slice holding_aapl.

Definition after_day_five : Algo.State := run through_day_five (Algo.Initialize 0).

Definition after_day_six : Algo.State := run through_day_six (Algo.Initialize 0).

Definition day_six_evening : Algo.State := Algo.with_Time (clock 6 15 50) after_day_five.

(** ** A cache holding one answer *)

Definition one_entry (key text : string) (cached_at : Z) : gmap string SecondOrderAI.CacheEntry :=
  {[ key := {| SecondOrderAI.response := text; SecondOrderAI.timestamp := cached_at |} ]}.

(** One day and ten seconds after an answer was cached. *)
Definition a_day_later (cached_at : Z) : Z := cached_at + Py.day + 10 * Py.second.

(** The outcome of a query answered from the cache. *)
Definition served (text : string) (cache : gmap string SecondOrderAI.CacheEntry)
    : SecondOrderAI.Outcome :=
  {| SecondOrderAI.returned := Some text;
     SecondOrderAI.cache_after := cache;
     SecondOrderAI.posted := false |}.

(** ** Further vocabulary for the signal generator and the cache *)

(** A returned signal stems from a record of the input that is above the
    confidence threshold. *)
Definition stems_from (second_order_map : list (string * list SecondOrderAI.Entity))
    (s : SecondOrderAI.Signal) : Prop :=
  ∃ e, e ∈ records second_order_map
       ∧ (0.6 <? SecondOrderAI.confidence e)%float = true
       ∧ s = SecondOrderAI.signal_of e.

(** The candidates the top-10 cut leaves behind. *)
Definition dropped_signals (second_order_map : list (string * list SecondOrderAI.Entity))
    : list SecondOrderAI.Signal :=
  drop 10 (Py.sorted_reverse SecondOrderAI.size_multiplier
             (SecondOrderAI.candidate_signals second_order_map)).

(** A competitor record that misses the first two rows of the table. *)
Definition rival_record : SecondOrderAI.Entity :=
  {| SecondOrderAI.ticker := "B"; SecondOrderAI.relationship := "competitor";
     SecondOrderAI.impact_direction := "negative";
     SecondOrderAI.impact_magnitude := 0.5; SecondOrderAI.confidence := 0.65;
     SecondOrderAI.time_lag_days := 12; SecondOrderAI.rationale := "" |}.

(** The cache key of a prompt. *)
Definition cache_key (hash : string → Z) (prefix prompt : string) : string :=
  prefix +:+ pretty (hash prompt).

(** A hash that sends every prompt to the same value. *)
Definition constant_hash (prompt : string) : Z := 0.

(** An answer of the collaborator. *)
Definition answer (text : string) (at_time : Z) : SecondOrderAI.Reply :=
  {| SecondOrderAI.content := text; SecondOrderAI.received_at := at_time |}.

(** ** Further vocabulary for the algorithm *)

(** The log lines of an entry. *)
Definition is_entry (m : Algo.Message) : bool :=
  match m with
  | Algo.SecondOrderLong _ _ _ | Algo.SecondOrderShort _ _ _ => true
  | _ => false
  end.

(** As many orders were placed as entries were logged between two states. *)
Definition one_order_per_entry (st st' : Algo.State) : Prop :=
  (length (Algo.orders st') + count is_entry (Algo.debug st)
   = length (Algo.orders st) + count is_entry (Algo.debug st'))%nat.

(** Every invested holding has an entry in [second_order_positions]. *)
Definition every_holding_tracked (st : Algo.State) : Prop :=
  ∀ s, Algo.Invested st s = true → is_Some (Py.get s (Algo.second_order_positions st)).

Definition keeps_holdings_tracked (st st' : Algo.State) : Prop :=
  every_holding_tracked st → every_holding_tracked st'.

(** Nothing but the log differs between two states. *)
Definition only_logged (st st' : Algo.State) : Prop :=
  same_settings st st'
  ∧ Algo.Time st' = Algo.Time st
  ∧ Algo.Portfolio st' = Algo.Portfolio st
  ∧ Algo.second_order_positions st' = Algo.second_order_positions st
  ∧ Algo.orders st' = Algo.orders st.

(** The engine reports no unrealised profit on a flat holding. *)
Definition flat_reports_zero (eng : Algo.Engine) : Prop :=
  ∀ (portfolio : gmap string Z) (symbol : string),
    default 0 (portfolio !! symbol) = 0 →
    Algo.UnrealizedProfitPercent eng portfolio symbol = 0%float.

(** A primary mover has a bar in the slice. *)
Definition has_bar (data : Algo.Slice) (symbol : string) : bool :=
  Algo.ContainsKey data symbol && Py.mem symbol (Algo.slice_bars data).

(** The intraday rule on one primary mover, read in a given state. *)
Definition intraday_fires (eng : Algo.Engine) (data : Algo.Slice)
    (st : Algo.State) (symbol : string) : bool :=
  has_bar data symbol
  && (0.05 <? abs (Algo.UnrealizedProfitPercent eng (Algo.Portfolio st) symbol))%float.

(** The tickers a chain lists, all categories together. *)
Definition chain_tickers (chain : list (string * list string)) : list string :=
  flat_map snd chain.

(** The chain of a primary symbol, empty when it has none. *)
Definition chain_of (st : Algo.State) (primary_symbol : string) : list (string * list string) :=
  default [] (Py.get primary_symbol (Algo.supply_chains st)).

(** The tickers [TriggerSecondOrderTrades] may trade for a primary symbol. *)
Definition trigger_tickers (st : Algo.State) (primary_symbol : string) : list string :=
  Algo.chain_get "suppliers" (chain_of st primary_symbol)
  ++ Algo.chain_get "competitors" (chain_of st primary_symbol).

(** SWKS stopped out on day 5: still tracked from day 0, no longer held. *)
Definition swks_stopped_out : Algo.State := Algo.Liquidate "SWKS" after_day_five.

(** The events that are callbacks of the engine (not a direct entry). *)
Definition is_callback (ev : Event) : bool :=
  match ev with
  | TradeEvent _ _ _ _ _ => false
  | _ => true
  end.

(** Settings kept and the quantity of one ticker kept. *)
Definition keeps_quantity (s : string) (st st' : Algo.State) : Prop :=
  same_settings st st' ∧ Algo.Quantity st' s = Algo.Quantity st s.

(** The primary movers that have a chain are not themselves listed in any
    chain, and are flat. *)
Definition chain_owners_apart (st : Algo.State) : Prop :=
  Forall
    (fun s => is_Some (Py.get s (Algo.supply_chains st)) →
              (s ∉ Algo.all_related (Algo.supply_chains st)) ∧ Algo.Invested st s = false)
    (Algo.primary_movers st).

(* ===================================================================== *)
(** * Facts about the runtime pieces *)
(* ===================================================================== *)

Section FloatOrder.

Lemma SFcompare_rank (f1 f2 : spec_float) :
  f1 ≠ S754_nan → f2 ≠ S754_nan →
  SFcompare f1 f2 = Some (lex3 (sf_rank f1) (sf_rank f2)).
Proof.
  destruct f1 as [s1|s1| |s1 m1 e1], f2 as [s2|s2| |s2 m2 e2];
    intros H1 H2; try congruence;
    try (destruct s1; reflexivity);
    try (destruct s2; reflexivity);
    try (destruct s1, s2; reflexivity).
  destruct s1, s2; try reflexivity; unfold lex3; cbn [sf_rank fst snd SFcompare].
  rewrite Z.compare_opp, (Z.compare_antisym e1 e2).
  change (-1 ?= -1) with Eq. cbn match.
  destruct (e1 ?= e2); reflexivity.
Qed.

Lemma is_nan_Prim2SF (x : float) :
  is_nan x = false ↔ Prim2SF x ≠ S754_nan.
Proof.
  unfold is_nan. rewrite FloatAxioms.eqb_spec. unfold SFeqb.
  split.
  - intros H E. rewrite E in H. discriminate.
  - intros H. rewrite SFcompare_rank by assumption.
    unfold lex3. rewrite !Z.compare_refl. reflexivity.
Qed.

Lemma fcompare_rank (x y : float) :
  is_nan x = false → is_nan y = false →
  SFcompare (Prim2SF x) (Prim2SF y) = Some (lex3 (rank x) (rank y)).
Proof.
  intros Hx Hy. apply SFcompare_rank; by apply is_nan_Prim2SF.
Qed.

Lemma SFcompare_Some (x y : float) c :
  SFcompare (Prim2SF x) (Prim2SF y) = Some c →
  is_nan x = false ∧ is_nan y = false ∧ lex3 (rank x) (rank y) = c.
Proof.
  intros H.
  assert (Hx : is_nan x = false).
  { apply is_nan_Prim2SF. intros E. rewrite E in H. discriminate. }
  assert (Hy : is_nan y = false).
  { apply is_nan_Prim2SF. intros E. rewrite E in H.
    destruct (Prim2SF x); discriminate. }
  rewrite fcompare_rank in H by assumption. by inversion H.
Qed.

Lemma lex3_Eq_trans a b c : lex3 a c = Eq → lex3 b c = Eq → lex3 a b = Eq.
Proof.
  unfold lex3. destruct a as [[a1 a2] a3], b as [[b1 b2] b3], c as [[c1 c2] c3]; cbn.
  destruct (Z.compare_spec a1 c1), (Z.compare_spec a2 c2), (Z.compare_spec a3 c3);
    try discriminate; intros _;
  destruct (Z.compare_spec b1 c1), (Z.compare_spec b2 c2), (Z.compare_spec b3 c3);
    try discriminate; intros _; subst.
  by rewrite !Z.compare_refl.
Qed.

Lemma lex3_total a b : lex3 b a ≠ Lt → lex3 a b ≠ Gt.
Proof.
  unfold lex3. destruct a as [[a1 a2] a3], b as [[b1 b2] b3]; cbn.
  destruct (Z.compare_spec a1 b1), (Z.compare_spec a2 b2), (Z.compare_spec a3 b3),
    (Z.compare_spec b1 a1), (Z.compare_spec b2 a2), (Z.compare_spec b3 a3);
    try congruence; try lia.
Qed.

Lemma lex3_le_trans a b c : lex3 a b ≠ Gt → lex3 b c ≠ Gt → lex3 a c ≠ Gt.
Proof.
  unfold lex3. destruct a as [[a1 a2] a3], b as [[b1 b2] b3], c as [[c1 c2] c3]; cbn.
  destruct (Z.compare_spec a1 b1), (Z.compare_spec a2 b2), (Z.compare_spec a3 b3);
    try congruence; intros _;
  destruct (Z.compare_spec b1 c1), (Z.compare_spec b2 c2), (Z.compare_spec b3 c3);
    try congruence; intros _;
  destruct (Z.compare_spec a1 c1), (Z.compare_spec a2 c2), (Z.compare_spec a3 c3);
    try congruence; try lia.
Qed.

(** On numbers, [not (y < x)] is [x <= y]. *)
Lemma float_not_lt_le (x y : float) :
  is_nan x = false → is_nan y = false →
  (y <? x)%float = false → (x <=? y)%float = true.
Proof.
  intros Hx Hy. rewrite ltb_spec, leb_spec. unfold SFltb, SFleb.
  rewrite !fcompare_rank by assumption.
  intros H. pose proof (lex3_total (rank x) (rank y)) as T.
  destruct (lex3 (rank y) (rank x)); try discriminate;
    destruct (lex3 (rank x) (rank y)); try reflexivity; exfalso; by apply T.
Qed.

Lemma float_le_trans (x y z : float) :
  (x <=? y)%float = true → (y <=? z)%float = true → (x <=? z)%float = true.
Proof.
  rewrite !leb_spec. unfold SFleb.
  destruct (SFcompare (Prim2SF x) (Prim2SF y)) as [c1|] eqn:E1; [|discriminate].
  destruct (SFcompare (Prim2SF y) (Prim2SF z)) as [c2|] eqn:E2; [|destruct c1; discriminate].
  apply SFcompare_Some in E1 as (Hx & Hy & E1), E2 as (_ & Hz & E2).
  rewrite fcompare_rank by assumption.
  pose proof (lex3_le_trans (rank x) (rank y) (rank z)) as T.
  rewrite E1, E2 in T.
  intros H1 H2.
  destruct (lex3 (rank x) (rank z)); try reflexivity.
  exfalso; apply T; [by destruct c1|by destruct c2|reflexivity].
Qed.

(** Two keys equal to the same number are not separated by [<]. *)
Lemma float_eq_not_lt (a b k : float) :
  (a =? k)%float = true → (b =? k)%float = true → (a <? b)%float = false.
Proof.
  rewrite !FloatAxioms.eqb_spec, ltb_spec. unfold SFeqb, SFltb.
  destruct (SFcompare (Prim2SF a) (Prim2SF k)) as [c1|] eqn:E1; [|discriminate].
  destruct (SFcompare (Prim2SF b) (Prim2SF k)) as [c2|] eqn:E2; [|destruct c1; discriminate].
  apply SFcompare_Some in E1 as (Ha & Hk & E1), E2 as (Hb & _ & E2).
  rewrite fcompare_rank by assumption.
  intros H1 H2.
  destruct c1; try discriminate. destruct c2; try discriminate.
  by rewrite (lex3_Eq_trans _ _ _ E1 E2).
Qed.

Lemma float_le_not_nan (x y : float) :
  (x <=? y)%float = true → is_nan x = false ∧ is_nan y = false.
Proof.
  rewrite leb_spec. unfold SFleb.
  destruct (SFcompare (Prim2SF x) (Prim2SF y)) as [c|] eqn:E; [|discriminate].
  apply SFcompare_Some in E as (Hx & Hy & _). auto.
Qed.

End FloatOrder.

Lemma float_lt_le (x y : float) :
  (x <? y)%float = true → (x <=? y)%float = true.
Proof.
  rewrite ltb_spec, leb_spec. unfold SFltb, SFleb.
  by destruct (SFcompare (Prim2SF x) (Prim2SF y)) as [[]|].
Qed.

Section SortedFacts.
Context {A : Type} (key : A → float).

Lemma insort_Permutation (x : A) (l : list A) : Py.insort key x l ≡ₚ x :: l.
Proof.
  induction l as [|y ys IH]; cbn; [done|].
  destruct (key y <? key x)%float; [|done].
  rewrite IH. apply perm_swap.
Qed.

Lemma sort_asc_Permutation (l : list A) : Py.sort_asc key l ≡ₚ l.
Proof.
  induction l as [|x l IH]; [done|].
  change (Py.sort_asc key (x :: l)) with (Py.insort key x (Py.sort_asc key l)).
  by rewrite insort_Permutation, IH.
Qed.

Lemma sorted_reverse_Permutation (l : list A) : Py.sorted_reverse key l ≡ₚ l.
Proof.
  unfold Py.sorted_reverse.
  by rewrite reverse_Permutation, sort_asc_Permutation, reverse_Permutation.
Qed.

Lemma insort_sorted (x : A) (l : list A) :
  is_number key x → Forall (is_number key) l →
  StronglySorted (ascending key) l → StronglySorted (ascending key) (Py.insort key x l).
Proof.
  intros Hx Hl Hs. induction Hs as [|y ys Hs IH Hy]; cbn.
  - by repeat constructor.
  - apply Forall_cons in Hl as [Hny Hl].
    destruct (key y <? key x)%float eqn:E.
    + constructor; [by apply IH|].
      rewrite insort_Permutation. constructor; [|done].
      by apply float_lt_le.
    + assert (ascending key x y) by (by apply float_not_lt_le).
      constructor; [by constructor|].
      constructor; [done|].
      eapply Forall_impl; [exact Hy|].
      intros z Hz. by eapply float_le_trans.
Qed.

Lemma sort_asc_sorted (l : list A) :
  Forall (is_number key) l → StronglySorted (ascending key) (Py.sort_asc key l).
Proof.
  induction 1 as [|x l Hx Hl IH]; [constructor|].
  change (Py.sort_asc key (x :: l)) with (Py.insort key x (Py.sort_asc key l)).
  apply insort_sorted; [done| |done].
  by rewrite sort_asc_Permutation.
Qed.

Lemma StronglySorted_reverse (R : relation A) (l : list A) :
  StronglySorted R l → StronglySorted (flip R) (reverse l).
Proof.
  induction 1 as [|x l Hs IH Hx]; [constructor|].
  rewrite reverse_cons. apply StronglySorted_app_2; [|done|repeat constructor].
  intros a b Ha Hb. apply list_elem_of_singleton in Hb as ->.
  rewrite elem_of_reverse in Ha. rewrite Forall_forall in Hx.
  unfold flip. by apply Hx.
Qed.

Lemma sorted_reverse_sorted (l : list A) :
  Forall (is_number key) l → StronglySorted (descending key) (Py.sorted_reverse key l).
Proof.
  intros Hl. unfold Py.sorted_reverse.
  apply (StronglySorted_reverse (ascending key)), sort_asc_sorted.
  by apply Forall_reverse.
Qed.

Lemma StronglySorted_take (R : relation A) (n : nat) (l : list A) :
  StronglySorted R l → StronglySorted R (take n l).
Proof.
  intros Hs. rewrite <- (take_drop n l) in Hs.
  by apply StronglySorted_app_1_l in Hs.
Qed.

(** Stability: the elements whose key equals [k] come out in the order
    they went in. *)
Lemma insort_stable (k : float) (x : A) (l : list A) :
  filter (fun a => (key a =? k)%float = true) (Py.insort key x l)
  = filter (fun a => (key a =? k)%float = true) (x :: l).
Proof.
  induction l as [|y ys IH]; cbn; [done|].
  destruct (key y <? key x)%float eqn:E; [|done].
  rewrite (filter_cons _ y), IH, !filter_cons.
  destruct (decide ((key y =? k)%float = true)) as [Hy|]; [|done].
  destruct (decide ((key x =? k)%float = true)) as [Hx|]; [|done].
  rewrite (float_eq_not_lt _ _ _ Hy Hx) in E. discriminate.
Qed.

Lemma sort_asc_stable (k : float) (l : list A) :
  filter (fun a => (key a =? k)%float = true) (Py.sort_asc key l)
  = filter (fun a => (key a =? k)%float = true) l.
Proof.
  induction l as [|x l IH]; [done|].
  change (Py.sort_asc key (x :: l)) with (Py.insort key x (Py.sort_asc key l)).
  by rewrite insort_stable, !filter_cons, IH.
Qed.

Lemma sorted_reverse_stable (k : float) (l : list A) :
  filter (fun a => (key a =? k)%float = true) (Py.sorted_reverse key l)
  = filter (fun a => (key a =? k)%float = true) l.
Proof.
  unfold Py.sorted_reverse.
  by rewrite filter_reverse, sort_asc_stable, filter_reverse, reverse_involutive.
Qed.

Lemma filter_take_prefix (P : A → Prop) `{!∀ a, Decision (P a)} (n : nat) (l : list A) :
  filter P (take n l) `prefix_of` filter P l.
Proof.
  rewrite <- (take_drop n l) at 2. rewrite filter_app.
  by apply prefix_app_r.
Qed.

End SortedFacts.

(* ===================================================================== *)
(** * The signal generator *)
(* ===================================================================== *)

Section SignalGenerator.
Import SecondOrderAI.

Lemma append_entities_filter (signals : list Signal) (entities : list Entity) :
  append_entities signals entities
  = signals ++ (signal_of <$> filter (fun e => (0.6 <? confidence e)%float = true) entities).
Proof.
  unfold append_entities. revert signals.
  induction entities as [|e es IH]; intros signals; cbn [fold_left].
  - by rewrite filter_nil, app_nil_r.
  - rewrite IH, filter_cons.
    destruct (0.6 <? confidence e)%float eqn:E.
    + rewrite decide_True by done. by rewrite <- app_assoc.
    + by rewrite decide_False by done.
Qed.

(** The two loops collect one signal per record above the threshold, in
    iteration order. *)
Lemma candidate_signals_qualifying (second_order_map : list (string * list Entity)) :
  candidate_signals second_order_map = signal_of <$> qualifying second_order_map.
Proof.
  unfold candidate_signals, qualifying, records.
  assert (G : ∀ acc,
    fold_left (fun signals item => append_entities signals item.2) second_order_map acc
    = acc ++ (signal_of <$>
        filter (fun e => (0.6 <? confidence e)%float = true) (flat_map snd second_order_map))).
  { induction second_order_map as [|[category entities] rest IH]; intros acc; cbn [fold_left flat_map].
    - by rewrite filter_nil, app_nil_r.
    - rewrite IH, append_entities_filter, filter_app, fmap_app.
      by rewrite <- app_assoc. }
  apply (G []).
Qed.

Lemma Forall_numeric_signals (second_order_map : list (string * list Entity)) :
  Forall numeric (qualifying second_order_map) →
  Forall (fun s => is_nan (size_multiplier s) = false) (candidate_signals second_order_map).
Proof.
  rewrite candidate_signals_qualifying, Forall_fmap.
  intros H. eapply Forall_impl; [exact H|]. intros e He. exact He.
Qed.

(** C9.  For the single record (ticker C, positive, magnitude 0.9,
    confidence 0.85, lag 2), whatever its category, relationship and
    rationale, the generator returns exactly one signal: BUY,
    DIRECT_EQUITY (first row of the table), stop loss 0.05, take profit
    0.10 and size multiplier 0.765 (the binary64 product 0.85 * 0.9 is the
    binary64 number 0.765). *)
Theorem C9_direct_equity_scenario (category relationship rationale : string) :
  generate_trade_signals [(category, [entity_C relationship rationale])]
  = [ {| sig_ticker := "C"; action := "BUY"; strategy := "DIRECT_EQUITY";
         size_multiplier := 0.765; time_horizon := 2;
         stop_loss := 0.05; take_profit := 0.1;
         sig_rationale := rationale |} ].
Proof. reflexivity. Qed.

(** C1, as stated, fails: ticker C listed under two categories, both
    records above the threshold, comes out with two signals (one per
    record), so the tickers of the output are not pairwise distinct. *)
Lemma C1_same_ticker_twice :
  generate_trade_signals twice_listed = [signal_of C_as_supplier; signal_of C_as_customer]
  ∧ ¬ NoDup (sig_ticker <$> generate_trade_signals twice_listed).
Proof.
  split; [reflexivity|].
  intros H. change (NoDup ["C"; "C"]) in H.
  apply NoDup_cons in H as [H _]. apply H. by left.
Qed.

(** C1, amended.  The generator does not deduplicate: with at most 10
    records above the threshold (so that the top-10 cut drops nothing) its
    output is a rearrangement of one signal per such record, and for every
    ticker the output holds as many signals as the input holds records of
    that ticker above the threshold, across all categories. *)
Theorem C1_one_signal_per_record (second_order_map : list (string * list Entity)) :
  (length (qualifying second_order_map) ≤ 10)%nat →
  generate_trade_signals second_order_map ≡ₚ signal_of <$> qualifying second_order_map
  ∧ ∀ t : string,
      length (filter (fun s => sig_ticker s = t) (generate_trade_signals second_order_map))
      = length (filter (fun e => ticker e = t) (qualifying second_order_map)).
Proof.
  intros Hlen.
  assert (P : generate_trade_signals second_order_map ≡ₚ signal_of <$> qualifying second_order_map).
  { unfold generate_trade_signals.
    rewrite take_ge.
    - by rewrite sorted_reverse_Permutation, candidate_signals_qualifying.
    - rewrite sorted_reverse_Permutation, candidate_signals_qualifying, length_fmap. done. }
  split; [exact P|].
  intros t. rewrite P.
  generalize (qualifying second_order_map). intros l.
  induction l as [|e l IH]; [done|].
  rewrite fmap_cons, !filter_cons. cbn [sig_ticker signal_of].
  destruct (decide (ticker e = t)); cbn [length]; by rewrite IH.
Qed.

Lemma C1_one_signal_per_record_witness :
  (length (qualifying twice_listed) ≤ 10)%nat
  ∧ (generate_trade_signals twice_listed ≡ₚ signal_of <$> qualifying twice_listed
     ∧ ∀ t : string,
         length (filter (fun s => sig_ticker s = t) (generate_trade_signals twice_listed))
         = length (filter (fun e => ticker e = t) (qualifying twice_listed))).
Proof.
  assert (H : (length (qualifying twice_listed) ≤ 10)%nat) by (vm_compute; lia).
  split; [exact H|].
  apply (C1_one_signal_per_record twice_listed). exact H.
Defined.

(** C7.  For every input mapping whose size multipliers are numbers, the
    generator returns at most 10 signals, in descending order of size
    multiplier, and stably: for every value [k], the returned signals of
    size multiplier [k] are the first ones, in input order (category by
    category, record by record), of the candidates of size multiplier [k]. *)
Theorem C7_capped_sorted_stable (second_order_map : list (string * list Entity)) :
  Forall numeric (qualifying second_order_map) →
  (length (generate_trade_signals second_order_map) ≤ 10)%nat
  ∧ StronglySorted by_size_desc (generate_trade_signals second_order_map)
  ∧ ∀ k : float,
      with_size k (generate_trade_signals second_order_map)
      `prefix_of` with_size k (signal_of <$> qualifying second_order_map).
Proof.
  intros Hnum. unfold generate_trade_signals. split; [|split].
  - rewrite length_take. lia.
  - apply StronglySorted_take, sorted_reverse_sorted.
    by apply Forall_numeric_signals.
  - intros k. unfold with_size.
    rewrite <- candidate_signals_qualifying.
    rewrite <- (sorted_reverse_stable size_multiplier k (candidate_signals second_order_map)).
    apply filter_take_prefix.
Qed.

Lemma C7_capped_sorted_stable_witness :
  Forall numeric (qualifying eleven_candidates)
  ∧ ((length (generate_trade_signals eleven_candidates) ≤ 10)%nat
     ∧ StronglySorted by_size_desc (generate_trade_signals eleven_candidates)
     ∧ ∀ k : float,
         with_size k (generate_trade_signals eleven_candidates)
         `prefix_of` with_size k (signal_of <$> qualifying eleven_candidates)).
Proof.
  assert (H : Forall numeric (qualifying eleven_candidates)).
  { vm_compute. repeat constructor. }
  split; [exact H|].
  apply (C7_capped_sorted_stable eleven_candidates). exact H.
Defined.

(** Eleven candidates: the ten largest come back in descending order, T1
    before T3 (equal size multipliers, input order), and T10, the
    smallest, is dropped. *)
Example eleven_candidates_ranked :
  sig_ticker <$> generate_trade_signals eleven_candidates
  = ["T11"; "T2"; "T4"; "T5"; "T6"; "T1"; "T3"; "T7"; "T8"; "T9"].
Proof. reflexivity. Qed.

End SignalGenerator.

(* ===================================================================== *)
(** * The algorithm: holdings, entries and the handlers' frame *)
(* ===================================================================== *)

Section Holdings.

Lemma invested_insert_fresh (m : gmap string Z) (s : string) (q : Z) :
  m !! s = None →
  invested (<[s := q]> m) = (one (negb (Z.eqb q 0)) + invested m)%nat.
Proof.
  intros Hs. unfold invested.
  rewrite (map_to_list_insert m s q Hs), filter_cons. cbn [snd].
  destruct (Z.eqb_spec q 0) as [->|Hq]; cbn [negb one].
  - by rewrite decide_False by (intros H; by apply H).
  - by rewrite decide_True by done.
Qed.

(** Writing a quantity moves the count by the change of that holding. *)
Lemma invested_insert (m : gmap string Z) (s : string) (q : Z) :
  (invested (<[s := q]> m) + one (negb (Z.eqb (default 0%Z (m !! s)) 0))
   = invested m + one (negb (Z.eqb q 0)))%nat.
Proof.
  destruct (m !! s) as [v|] eqn:Hs; cbn [default].
  - rewrite <- (insert_delete_eq m s q).
    rewrite <- (insert_delete_id m s v Hs) at 2.
    rewrite !invested_insert_fresh by apply lookup_delete_eq.
    unfold id. lia.
  - rewrite invested_insert_fresh by done. cbn. lia.
Qed.

Lemma invested_insert_le (m : gmap string Z) (s : string) (q : Z) :
  (invested (<[s := q]> m) ≤ S (invested m))%nat.
Proof.
  pose proof (invested_insert m s q).
  destruct (negb (q =? 0)), (negb (default 0 (m !! s) =? 0)); cbn in *; lia.
Qed.

Lemma invested_insert_zero (m : gmap string Z) (s : string) :
  (invested (<[s := 0%Z]> m) ≤ invested m)%nat.
Proof.
  pose proof (invested_insert m s 0).
  destruct (negb (default 0 (m !! s) =? 0)); cbn in *; lia.
Qed.

End Holdings.

Section Entry.
Import Algo.

Lemma same_settings_refl (st : State) : same_settings st st.
Proof. by repeat split. Qed.

Lemma same_settings_trans (a b c : State) :
  same_settings a b → same_settings b c → same_settings a c.
Proof.
  intros (?&?&?&?&?) (?&?&?&?&?). repeat split; congruence.
Qed.

Lemma trades_only_refl (st : State) : trades_only st st.
Proof. repeat split; auto. Qed.

Lemma trades_only_trans (a b c : State) :
  trades_only a b → trades_only b c → trades_only a c.
Proof.
  intros (S1 & T1 & I1 & E1) (S2 & T2 & I2 & E2).
  split; [by eapply same_settings_trans|].
  split; [congruence|]. split; [auto|].
  intros s. destruct (E1 s), (E2 s). split; congruence.
Qed.

Lemma fold_trades_only {X : Type} (f : State → X → State) (l : list X) (st : State) :
  (∀ st x, trades_only st (f st x)) → trades_only st (fold_left f l st).
Proof.
  intros Hf. revert st. induction l as [|x l IH]; intros st; cbn.
  - apply trades_only_refl.
  - eapply trades_only_trans; [apply Hf|apply IH].
Qed.

Lemma count_app (f : Message → bool) (l1 l2 : list Message) :
  count f (l1 ++ l2) = (count f l1 + count f l2)%nat.
Proof. unfold count. by rewrite List.filter_app, length_app. Qed.

Lemma current_positions_invested (st : State) :
  current_positions st = invested (Portfolio st).
Proof. reflexivity. Qed.

(** A refused entry changes nothing. *)
Lemma ExecuteSecondOrderTrade_refused (eng : Engine)
    (symbol direction reason : string) (conf : float) (st : State) :
  Invested st symbol = true ∨ (max_positions st ≤ current_positions st)%nat →
  ExecuteSecondOrderTrade eng symbol direction reason conf st = st.
Proof.
  intros H. unfold ExecuteSecondOrderTrade.
  destruct (Invested st symbol); [done|].
  destruct H as [H|H]; [discriminate|].
  by rewrite (proj2 (Nat.leb_le _ _) H).
Qed.

Lemma ExecuteSecondOrderTrade_trades_only (eng : Engine)
    (symbol direction reason : string) (conf : float) (st : State) :
  trades_only st (ExecuteSecondOrderTrade eng symbol direction reason conf st).
Proof.
  unfold ExecuteSecondOrderTrade.
  destruct (Invested st symbol); [apply trades_only_refl|].
  destruct (Nat.leb_spec (max_positions st) (current_positions st)) as [|Hroom];
    [apply trades_only_refl|].
  destruct (String.eqb direction "LONG"); [|destruct (String.eqb direction "SHORT")].
  - repeat split; cbn; try done.
    + intros _. rewrite current_positions_invested in *. cbn.
      eapply Nat.le_trans; [apply invested_insert_le|lia].
    + unfold count. by rewrite List.filter_app, length_app, Nat.add_0_r.
    + unfold count. by rewrite List.filter_app, length_app, Nat.add_0_r.
  - repeat split; cbn; try done.
    + intros _. rewrite current_positions_invested in *. cbn.
      eapply Nat.le_trans; [apply invested_insert_le|lia].
    + unfold count. by rewrite List.filter_app, length_app, Nat.add_0_r.
    + unfold count. by rewrite List.filter_app, length_app, Nat.add_0_r.
  - repeat split; cbn; done.
Qed.

Lemma trade_each_trades_only (eng : Engine) (data : Slice) (tickers : list string)
    (direction reason : string) (conf : float) (st : State) :
  trades_only st (trade_each eng data tickers direction reason conf st).
Proof.
  apply fold_trades_only. intros st' x.
  destruct (ContainsKey data x);
    [apply ExecuteSecondOrderTrade_trades_only|apply trades_only_refl].
Qed.

Lemma TriggerSecondOrderTrades_trades_only (eng : Engine)
    (primary_symbol : string) (move : float) (data : Slice) (st : State) :
  trades_only st (TriggerSecondOrderTrades eng primary_symbol move data st).
Proof.
  unfold TriggerSecondOrderTrades.
  destruct (Py.get primary_symbol (supply_chains st)); [|apply trades_only_refl].
  destruct (0 <? move)%float;
    (eapply trades_only_trans; apply trade_each_trades_only).
Qed.

Lemma analyze_ticker_trades_only (eng : Engine) (primary_symbol : string)
    (move : float) (category ticker : string) (st : State) :
  trades_only st (analyze_ticker eng primary_symbol move category ticker st).
Proof.
  unfold analyze_ticker.
  destruct (History eng [ticker] 20 ticker) as [|c cs]; [apply trades_only_refl|].
  destruct (iloc_neg 1 (c :: cs)); [|apply trades_only_refl].
  destruct (iloc_neg 5 (c :: cs)); [|apply trades_only_refl].
  match goal with |- context [if ?b then _ else st] => destruct b end;
    [apply ExecuteSecondOrderTrade_trades_only|apply trades_only_refl].
Qed.

Lemma AnalyzeSecondOrderOpportunities_trades_only (eng : Engine)
    (primary_symbol : string) (move : float) (st : State) :
  trades_only st (AnalyzeSecondOrderOpportunities eng primary_symbol move st).
Proof.
  unfold AnalyzeSecondOrderOpportunities.
  destruct (Py.get primary_symbol (supply_chains st)); [|apply trades_only_refl].
  apply fold_trades_only. intros st' item.
  apply fold_trades_only. intros st'' ticker.
  apply analyze_ticker_trades_only.
Qed.

End Entry.

(* ===================================================================== *)
(** * The handlers keep the cap *)
(* ===================================================================== *)

Section Cap.
Import Algo.

Lemma keeps_cap_refl (st : State) : keeps_cap st st.
Proof. split; [apply same_settings_refl|auto]. Qed.

Lemma keeps_cap_trans (a b c : State) :
  keeps_cap a b → keeps_cap b c → keeps_cap a c.
Proof.
  intros [S1 I1] [S2 I2]. split; [by eapply same_settings_trans|auto].
Qed.

Lemma trades_only_keeps_cap (st st' : State) : trades_only st st' → keeps_cap st st'.
Proof. intros (S & _ & I & _). by split. Qed.

Lemma fold_keeps_cap {X : Type} (f : State → X → State) (l : list X) (st : State) :
  (∀ st x, keeps_cap st (f st x)) → keeps_cap st (fold_left f l st).
Proof.
  intros Hf. revert st. induction l as [|x l IH]; intros st; cbn.
  - apply keeps_cap_refl.
  - eapply keeps_cap_trans; [apply Hf|apply IH].
Qed.

Lemma Debug_keeps_cap (m : Message) (st : State) : keeps_cap st (Debug m st).
Proof. split; [by repeat split|auto]. Qed.

Lemma OnData_keeps_cap (eng : Engine) (data : Slice) (st : State) :
  keeps_cap st (OnData eng data st).
Proof.
  unfold OnData. generalize (primary_movers st). intros movers.
  apply fold_keeps_cap. clear st. intros st symbol.
  destruct (negb (ContainsKey data symbol)); [apply keeps_cap_refl|].
  destruct (Py.mem symbol (slice_bars data)); [|apply keeps_cap_refl].
  destruct (0.05 <? _)%float; [|apply keeps_cap_refl].
  eapply keeps_cap_trans; [apply Debug_keeps_cap|].
  apply trades_only_keeps_cap, TriggerSecondOrderTrades_trades_only.
Qed.

Lemma DetectSecondOrderEffects_keeps_cap (eng : Engine) (st : State) :
  keeps_cap st (DetectSecondOrderEffects eng st).
Proof.
  unfold DetectSecondOrderEffects.
  destruct (forallb _ _); [apply keeps_cap_refl|].
  generalize (History eng (primary_movers st) 5). intros history.
  generalize (primary_movers st). intros movers.
  apply fold_keeps_cap. clear st. intros st symbol.
  destruct (history symbol) as [|c cs]; [apply keeps_cap_refl|].
  destruct (0.10 <? _)%float; [|apply keeps_cap_refl].
  eapply keeps_cap_trans; [apply Debug_keeps_cap|].
  apply trades_only_keeps_cap, AnalyzeSecondOrderOpportunities_trades_only.
Qed.

Lemma close_position_keeps_cap (sym : string) (st : State) :
  keeps_cap st (close_position sym st).
Proof.
  unfold close_position. destruct (Invested st sym); [|apply keeps_cap_refl].
  split; [by repeat split|].
  cbn. rewrite !current_positions_invested. cbn. intros H.
  eapply Nat.le_trans; [apply invested_insert_zero|exact H].
Qed.

Lemma OnEndOfDay_keeps_cap (symbol : string) (st : State) :
  keeps_cap st (OnEndOfDay symbol st).
Proof.
  unfold OnEndOfDay. apply fold_keeps_cap. intros. apply close_position_keeps_cap.
Qed.

Lemma step_keeps_cap (ev : Event) (st : State) : keeps_cap st (step ev st).
Proof.
  destruct ev; cbn.
  - apply OnData_keeps_cap.
  - apply DetectSecondOrderEffects_keeps_cap.
  - apply OnEndOfDay_keeps_cap.
  - apply trades_only_keeps_cap, ExecuteSecondOrderTrade_trades_only.
  - split; [by repeat split|auto].
Qed.

Lemma run_keeps_cap (evs : list Event) (st : State) : keeps_cap st (run evs st).
Proof.
  unfold run. apply fold_keeps_cap. intros. apply step_keeps_cap.
Qed.

(** C8.  Reading OPEN as the code does (a holding is open when it is
    [Invested]): from any state within the cap, after any sequence of
    callbacks and entry attempts the number of invested holdings is still
    within the configured cap (which no callback changes), and an entry
    attempted there for a ticker that is already invested, or when the
    count has reached the cap, returns the state unchanged. *)
Theorem C8_open_positions_capped (st : State) (evs : list Event) :
  (current_positions st ≤ max_positions st)%nat →
  (current_positions (run evs st) ≤ max_positions (run evs st))%nat
  ∧ max_positions (run evs st) = max_positions st
  ∧ ∀ (eng : Engine) (symbol direction reason : string) (conf : float),
      Invested (run evs st) symbol = true
      ∨ (max_positions (run evs st) ≤ current_positions (run evs st))%nat →
      ExecuteSecondOrderTrade eng symbol direction reason conf (run evs st) = run evs st.
Proof.
  intros Hcap. destruct (run_keeps_cap evs st) as [(_ & _ & Hmax & _) Hkeep].
  split; [by apply Hkeep|]. split; [exact Hmax|].
  intros. by apply ExecuteSecondOrderTrade_refused.
Qed.

Lemma C8_open_positions_capped_witness :
  (current_positions (Initialize 0) ≤ max_positions (Initialize 0))%nat
  ∧ ((current_positions (run first_morning (Initialize 0))
      ≤ max_positions (run first_morning (Initialize 0)))%nat
     ∧ max_positions (run first_morning (Initialize 0)) = max_positions (Initialize 0)
     ∧ ∀ (eng : Engine) (symbol direction reason : string) (conf : float),
         Invested (run first_morning (Initialize 0)) symbol = true
         ∨ (max_positions (run first_morning (Initialize 0))
            ≤ current_positions (run first_morning (Initialize 0)))%nat →
         ExecuteSecondOrderTrade eng symbol direction reason conf
           (run first_morning (Initialize 0))
         = run first_morning (Initialize 0)).
Proof.
  assert (H : (current_positions (Initialize 0) ≤ max_positions (Initialize 0))%nat)
    by (vm_compute; lia).
  split; [exact H|].
  apply (C8_open_positions_capped (Initialize 0) first_morning). exact H.
Defined.

(** The cap is reached, not only respected: that morning ends with ten
    invested holdings, and the default cap is ten. *)
Example first_morning_fills_the_book :
  current_positions (run first_morning (Initialize 0)) = 10%nat
  ∧ max_positions (Initialize 0) = 10%nat.
Proof. split; reflexivity. Qed.

(** C10.  The capacity guard counts the invested holdings of the whole
    portfolio and never looks at [second_order_positions]: whatever that
    dictionary holds (also nothing at all), an entry is refused, the state
    returned unchanged, as soon as the portfolio has [max_positions]
    invested holdings. *)
Theorem C10_cap_counts_whole_portfolio (eng : Engine)
    (symbol direction reason : string) (conf : float)
    (st : State) (tracked : list (string * Position)) :
  (max_positions st ≤ invested (Portfolio st))%nat →
  ExecuteSecondOrderTrade eng symbol direction reason conf (with_positions tracked st)
  = with_positions tracked st.
Proof.
  intros H. apply ExecuteSecondOrderTrade_refused. right.
  rewrite current_positions_invested. exact H.
Qed.

Lemma C10_cap_counts_whole_portfolio_witness :
  (max_positions (run first_morning (Initialize 0))
   ≤ invested (Portfolio (run first_morning (Initialize 0))))%nat
  ∧ ExecuteSecondOrderTrade (broker 40 0 flat_closes) "TSM" "LONG"
      "NVDA rally benefits supplier" 0.7 (with_positions [] (run first_morning (Initialize 0)))
    = with_positions [] (run first_morning (Initialize 0)).
Proof.
  assert (H : (max_positions (run first_morning (Initialize 0))
               ≤ invested (Portfolio (run first_morning (Initialize 0))))%nat)
    by (vm_compute; lia).
  split; [exact H|].
  apply (C10_cap_counts_whole_portfolio (broker 40 0 flat_closes) "TSM" "LONG"
           "NVDA rally benefits supplier" 0.7 (run first_morning (Initialize 0)) []).
  exact H.
Defined.

End Cap.

(* ===================================================================== *)
(** * Entries: what an accepted trade does *)
(* ===================================================================== *)

Section Accepted.
Import Algo.

(** An accepted entry tracks the position, touches no other holding and
    adds at most one invested holding. *)
Lemma ExecuteSecondOrderTrade_accepted (eng : Engine)
    (symbol direction reason : string) (conf : float) (st : State) :
  Invested st symbol = false →
  (current_positions st < max_positions st)%nat →
  let st' := ExecuteSecondOrderTrade eng symbol direction reason conf st in
  second_order_positions st'
  = Py.set symbol (tracked st direction reason conf) (second_order_positions st)
  ∧ (∀ s, s ≠ symbol → Invested st' s = Invested st s)
  ∧ (current_positions st' ≤ S (current_positions st))%nat.
Proof.
  intros Hflat Hroom. cbn zeta. unfold ExecuteSecondOrderTrade.
  rewrite Hflat. rewrite (proj2 (Nat.leb_gt _ _) Hroom).
  destruct (String.eqb direction "LONG"); [|destruct (String.eqb direction "SHORT")].
  - split; [reflexivity|]. split.
    + intros s Hs. unfold Invested, Quantity. cbn. by rewrite lookup_insert_ne.
    + rewrite !current_positions_invested. cbn. apply invested_insert_le.
  - split; [reflexivity|]. split.
    + intros s Hs. unfold Invested, Quantity. cbn. by rewrite lookup_insert_ne.
    + rewrite !current_positions_invested. cbn. apply invested_insert_le.
  - split; [reflexivity|]. split; [done|].
    rewrite !current_positions_invested. cbn. lia.
Qed.

(** C3, as stated, fails: the BUY signal of [C_as_customer] carries a stop
    loss of 0.03 and a take profit of 0.07, yet entering it at a price of
    100 leaves one order only, a stop at 95; there is no order at the
    signal's stop level (97) nor at its target level (107). *)
Lemma C3_levels_not_from_signal :
  SecondOrderAI.action customer_signal = "BUY"
  ∧ signal_stop_level customer_signal 100 = 97%float
  ∧ signal_target_level customer_signal 100 = 107%float
  ∧ customer_entry_orders
    = [ {| order_symbol := "C"; order_quantity := -40; stop_price := 95 |} ]
  ∧ has_level (signal_stop_level customer_signal 100) customer_entry_orders = false
  ∧ has_level (signal_target_level customer_signal 100) customer_entry_orders = false.
Proof. repeat split; reflexivity. Qed.

(** C3, amended.  Whenever a position is opened, a stop order on the
    ticker is placed at a fixed 5 percent from the current price: at
    price x 0.95 for LONG and, inverted, at price x 1.05 for SHORT.  The
    level depends on the price only (the entry takes no signal). *)
Theorem C3_fixed_five_percent_stop (eng : Engine)
    (symbol reason : string) (conf : float) (st : State) :
  Invested st symbol = false →
  (current_positions st < max_positions st)%nat →
  (∃ q, {| order_symbol := symbol; order_quantity := q;
           stop_price := (Price eng symbol * 0.95)%float |}
        ∈ orders (ExecuteSecondOrderTrade eng symbol "LONG" reason conf st))
  ∧ (∃ q, {| order_symbol := symbol; order_quantity := q;
             stop_price := (Price eng symbol * 1.05)%float |}
          ∈ orders (ExecuteSecondOrderTrade eng symbol "SHORT" reason conf st)).
Proof.
  intros Hflat Hroom. unfold ExecuteSecondOrderTrade.
  rewrite Hflat, (proj2 (Nat.leb_gt _ _) Hroom).
  split; eexists; cbn; apply elem_of_app; right; apply list_elem_of_singleton; reflexivity.
Qed.

Lemma C3_fixed_five_percent_stop_witness :
  Invested (AddEquity "C" (Initialize 0)) "C" = false
  ∧ (current_positions (AddEquity "C" (Initialize 0))
     < max_positions (AddEquity "C" (Initialize 0)))%nat
  ∧ ((∃ q, {| order_symbol := "C"; order_quantity := q;
              stop_price := (Price (broker 40 0 flat_closes) "C" * 0.95)%float |}
           ∈ orders (ExecuteSecondOrderTrade (broker 40 0 flat_closes) "C" "LONG"
                       "buys product" 0.7 (AddEquity "C" (Initialize 0))))
     ∧ (∃ q, {| order_symbol := "C"; order_quantity := q;
                stop_price := (Price (broker 40 0 flat_closes) "C" * 1.05)%float |}
             ∈ orders (ExecuteSecondOrderTrade (broker 40 0 flat_closes) "C" "SHORT"
                         "buys product" 0.7 (AddEquity "C" (Initialize 0))))).
Proof.
  assert (H1 : Invested (AddEquity "C" (Initialize 0)) "C" = false) by reflexivity.
  assert (H2 : (current_positions (AddEquity "C" (Initialize 0))
                < max_positions (AddEquity "C" (Initialize 0)))%nat)
    by (vm_compute; lia).
  split; [exact H1|]. split; [exact H2|].
  apply (C3_fixed_five_percent_stop (broker 40 0 flat_closes) "C" "buys product" 0.7
           (AddEquity "C" (Initialize 0)) H1 H2).
Defined.

End Accepted.

(* ===================================================================== *)
(** * The graph-only path *)
(* ===================================================================== *)

Section GraphPath.
Import Algo.

(** C4, as stated, fails: with the causal-mapping collaborator out of the
    picture, a positive move of X with supplier A and competitor B makes
    [TriggerSecondOrderTrades] open two positions, a LONG on A recorded
    with confidence 0.7 and a SHORT on B recorded with confidence 0.5; no
    confidence threshold stands between the graph and the trades. *)
Lemma C4_two_trades_result :
  second_order_positions xab_after
  = [ ("A", {| entry_time := clock 0 10 0; direction := "LONG";
               reason := "X rally benefits supplier"; confidence := 0.7 |});
      ("B", {| entry_time := clock 0 10 0; direction := "SHORT";
               reason := "X rally hurts competitor"; confidence := 0.5 |}) ]
  ∧ current_positions xab_after = 2%nat
  ∧ Quantity xab_after "A" = 40 ∧ Quantity xab_after "B" = -40.
Proof. repeat split; reflexivity. Qed.

(** An accepted LONG entry, step by step: the holding is set to the
    quantity [SetHoldings] reaches for [entry_size], the entry is logged, a
    stop order to sell that quantity is placed 5 percent under the price,
    and the position is tracked. *)
Lemma ExecuteSecondOrderTrade_long (eng : Engine) (symbol reason : string)
    (conf : float) (st : State) :
  Invested st symbol = false →
  (current_positions st < max_positions st)%nat →
  ExecuteSecondOrderTrade eng symbol "LONG" reason conf st
  = with_positions
      (Py.set symbol (tracked st "LONG" reason conf) (second_order_positions st))
      (StopMarketOrder symbol
         (- SetHoldings_quantity eng (Portfolio st) symbol (entry_size st conf))
         (Price eng symbol * 0.95)%float
         (Debug (SecondOrderLong symbol reason (entry_size st conf))
            (SetHoldings eng symbol (entry_size st conf) st))).
Proof.
  intros Hflat Hroom. unfold ExecuteSecondOrderTrade.
  rewrite Hflat, (proj2 (Nat.leb_gt _ _) Hroom).
  change (String.eqb "LONG" "LONG") with true. cbv iota.
  unfold tracked, entry_size, Quantity, Debug, SetHoldings, StopMarketOrder. cbn.
  by rewrite lookup_insert_eq.
Qed.

(** An accepted SHORT entry: the same with the fraction negated and the
    stop order, to buy the quantity back, 5 percent over the price. *)
Lemma ExecuteSecondOrderTrade_short (eng : Engine) (symbol reason : string)
    (conf : float) (st : State) :
  Invested st symbol = false →
  (current_positions st < max_positions st)%nat →
  ExecuteSecondOrderTrade eng symbol "SHORT" reason conf st
  = with_positions
      (Py.set symbol (tracked st "SHORT" reason conf) (second_order_positions st))
      (StopMarketOrder symbol
         (SetHoldings_quantity eng (Portfolio st) symbol (- entry_size st conf)%float)
         (Price eng symbol * 1.05)%float
         (Debug (SecondOrderShort symbol reason (entry_size st conf))
            (SetHoldings eng symbol (- entry_size st conf)%float st))).
Proof.
  intros Hflat Hroom. unfold ExecuteSecondOrderTrade.
  rewrite Hflat, (proj2 (Nat.leb_gt _ _) Hroom).
  change (String.eqb "SHORT" "LONG") with false.
  change (String.eqb "SHORT" "SHORT") with true. cbv iota.
  unfold tracked, entry_size, Quantity, Debug, SetHoldings, StopMarketOrder. cbn.
  by rewrite lookup_insert_eq.
Qed.

(** C4, amended.  After a positive move of X whose chain lists supplier A
    and competitor B (both in the slice, neither invested, room for two),
    the graph path opens both positions itself.  [SetHoldings] is called
    for A with the positive fraction position_size x multiplier x 0.7 and
    then for B with the negated fraction position_size x multiplier x 0.5,
    so the portfolio holds A at the quantity reached for the LONG and B at
    the quantity reached for the SHORT; a stop order is placed for each (A
    at price x 0.95, B at price x 1.05), both entries are logged, and A is
    tracked LONG with confidence 0.7 and B SHORT with confidence 0.5.  The
    static impact weights are 0.7 for suppliers and 0.5 for competitors,
    and records with confidence 0.5 (not above 0.6), were they handed to
    the signal generator, give no signal. *)
Theorem C4_graph_path_trades_directly (eng : Engine) (X A B : string)
    (move : float) (data : Slice) (st : State) (chain : list (string * list string)) :
  Py.get X (supply_chains st) = Some chain →
  chain_get "suppliers" chain = [A] →
  chain_get "competitors" chain = [B] →
  String.eqb A B = false →
  (0 <? move)%float = true →
  ContainsKey data A = true →
  ContainsKey data B = true →
  Invested st A = false →
  Invested st B = false →
  (current_positions st + 2 ≤ max_positions st)%nat →
  second_order_positions (TriggerSecondOrderTrades eng X move data st)
  = Py.set B (tracked st "SHORT" (X +:+ " rally hurts competitor") 0.5)
      (Py.set A (tracked st "LONG" (X +:+ " rally benefits supplier") 0.7)
         (second_order_positions st))
  ∧ SupplyChainMapper.calculate_impact_score X A "suppliers" = 0.7%float
  ∧ SupplyChainMapper.calculate_impact_score X B "competitors" = 0.5%float
  ∧ SecondOrderAI.generate_trade_signals (fallback_records A B) = []
  ∧ Portfolio (TriggerSecondOrderTrades eng X move data st)
    = <[B := competitor_fill eng st A B]>
        (<[A := supplier_fill eng st A]> (Portfolio st))
  ∧ Quantity (TriggerSecondOrderTrades eng X move data st) A = supplier_fill eng st A
  ∧ Quantity (TriggerSecondOrderTrades eng X move data st) B = competitor_fill eng st A B
  ∧ orders (TriggerSecondOrderTrades eng X move data st)
    = orders st
      ++ [ {| order_symbol := A; order_quantity := - supplier_fill eng st A;
              stop_price := (Price eng A * 0.95)%float |};
           {| order_symbol := B; order_quantity := competitor_fill eng st A B;
              stop_price := (Price eng B * 1.05)%float |} ]
  ∧ debug (TriggerSecondOrderTrades eng X move data st)
    = debug st
      ++ [ SecondOrderLong A (X +:+ " rally benefits supplier") (entry_size st 0.7);
           SecondOrderShort B (X +:+ " rally hurts competitor") (entry_size st 0.5) ].
Proof.
  intros Hchain Hsup Hcomp HAB Hmove HA HB HfA HfB Hroom.
  apply String.eqb_neq in HAB.
  unfold TriggerSecondOrderTrades. rewrite Hchain, Hmove, Hsup, Hcomp.
  unfold trade_each. cbn [fold_left]. rewrite HA, HB.
  set (rA := X +:+ " rally benefits supplier").
  set (rB := X +:+ " rally hurts competitor").
  assert (HroomA : (current_positions st < max_positions st)%nat) by lia.
  destruct (ExecuteSecondOrderTrade_accepted eng A "LONG" rA 0.7 st HfA HroomA)
    as (_ & Hothers & Hcount).
  destruct (ExecuteSecondOrderTrade_trades_only eng A "LONG" rA 0.7 st)
    as ((_ & _ & Hmax & _) & _).
  pose proof (ExecuteSecondOrderTrade_long eng A rA 0.7 st HfA HroomA) as E1.
  set (st1 := ExecuteSecondOrderTrade eng A "LONG" rA 0.7 st) in *.
  assert (HfB1 : Invested st1 B = false).
  { rewrite Hothers; [exact HfB|]. intros E. by apply HAB. }
  assert (HroomB : (current_positions st1 < max_positions st1)%nat) by lia.
  rewrite (ExecuteSecondOrderTrade_short eng B rB 0.5 st1 HfB1 HroomB).
  rewrite E1.
  unfold competitor_fill, supplier_fill, entry_size, tracked, Quantity,
    Debug, SetHoldings, StopMarketOrder.
  cbn.
  repeat split; try reflexivity.
  - rewrite lookup_insert_ne; [|congruence]. by rewrite lookup_insert_eq.
  - by rewrite lookup_insert_eq.
  - by rewrite <- app_assoc.
  - by rewrite <- app_assoc.
Qed.

Lemma C4_graph_path_trades_directly_witness :
  second_order_positions
    (TriggerSecondOrderTrades (broker 40 0 flat_closes) "X" 0.06 xab_slice xab_state)
  = Py.set "B" (tracked xab_state "SHORT" ("X" +:+ " rally hurts competitor") 0.5)
      (Py.set "A" (tracked xab_state "LONG" ("X" +:+ " rally benefits supplier") 0.7)
         (second_order_positions xab_state))
  ∧ SupplyChainMapper.calculate_impact_score "X" "A" "suppliers" = 0.7%float
  ∧ SupplyChainMapper.calculate_impact_score "X" "B" "competitors" = 0.5%float
  ∧ SecondOrderAI.generate_trade_signals (fallback_records "A" "B") = []
  ∧ Portfolio
      (TriggerSecondOrderTrades (broker 40 0 flat_closes) "X" 0.06 xab_slice xab_state)
    = <["B" := competitor_fill (broker 40 0 flat_closes) xab_state "A" "B"]>
        (<["A" := supplier_fill (broker 40 0 flat_closes) xab_state "A"]>
           (Portfolio xab_state))
  ∧ Quantity
      (TriggerSecondOrderTrades (broker 40 0 flat_closes) "X" 0.06 xab_slice xab_state)
      "A" = supplier_fill (broker 40 0 flat_closes) xab_state "A"
  ∧ Quantity
      (TriggerSecondOrderTrades (broker 40 0 flat_closes) "X" 0.06 xab_slice xab_state)
      "B" = competitor_fill (broker 40 0 flat_closes) xab_state "A" "B"
  ∧ orders
      (TriggerSecondOrderTrades (broker 40 0 flat_closes) "X" 0.06 xab_slice xab_state)
    = orders xab_state
      ++ [ {| order_symbol := "A";
              order_quantity := - supplier_fill (broker 40 0 flat_closes) xab_state "A";
              stop_price := (Price (broker 40 0 flat_closes) "A" * 0.95)%float |};
           {| order_symbol := "B";
              order_quantity := competitor_fill (broker 40 0 flat_closes) xab_state "A" "B";
              stop_price := (Price (broker 40 0 flat_closes) "B" * 1.05)%float |} ]
  ∧ debug
      (TriggerSecondOrderTrades (broker 40 0 flat_closes) "X" 0.06 xab_slice xab_state)
    = debug xab_state
      ++ [ SecondOrderLong "A" ("X" +:+ " rally benefits supplier")
             (entry_size xab_state 0.7);
           SecondOrderShort "B" ("X" +:+ " rally hurts competitor")
             (entry_size xab_state 0.5) ].
Proof.
  apply (C4_graph_path_trades_directly (broker 40 0 flat_closes) "X" "A" "B" 0.06
           xab_slice xab_state [ ("suppliers", ["A"]); ("competitors", ["B"]) ]);
    try reflexivity.
  vm_compute. lia.
Defined.

End GraphPath.

(* ===================================================================== *)
(** * Event detection *)
(* ===================================================================== *)

Section Detection.
Import Algo.

Lemma count_snoc (f : Message → bool) (log : list Message) (m : Message) :
  count f (log ++ [m]) = (count f log + one (f m))%nat.
Proof.
  rewrite count_app. unfold count. cbn. by destruct (f m).
Qed.

(** One turn of the multi-day loop: a multi-day event of [x] when the rule
    fires on [x], nothing else among the primary events. *)
Lemma detect_body_events (eng : Engine) (history : string → list float)
    (st : State) (x symbol : string) :
  same_settings st (detect_body eng history st x)
  ∧ count (is_intraday symbol) (debug (detect_body eng history st x))
    = count (is_intraday symbol) (debug st)
  ∧ count (is_multiday symbol) (debug (detect_body eng history st x))
    = (count (is_multiday symbol) (debug st)
       + one (String.eqb x symbol && fires_on history x))%nat.
Proof.
  unfold detect_body, fires_on, five_day_return.
  destruct (history x) as [|c cs] eqn:Hx.
  - rewrite andb_false_r. cbn. repeat split; lia.
  - set (r := (List.last (c :: cs) c / c - 1)%float).
    destruct (0.10 <? abs r)%float.
    + destruct (AnalyzeSecondOrderOpportunities_trades_only eng x r
                  (Debug (MultiDayEvent x r) st)) as (S & _ & _ & E).
      destruct (E symbol) as [E1 E2].
      split; [exact S|]. rewrite E1, E2. cbn [Debug with_debug debug].
      rewrite !count_snoc. cbn [is_intraday is_multiday one].
      rewrite andb_true_r. split; lia.
    + rewrite andb_false_r. cbn. repeat split; lia.
Qed.

Lemma detect_loop_events (eng : Engine) (history : string → list float)
    (movers : list string) (st : State) (symbol : string) :
  NoDup movers →
  let st' := fold_left (detect_body eng history) movers st in
  same_settings st st'
  ∧ count (is_intraday symbol) (debug st') = count (is_intraday symbol) (debug st)
  ∧ count (is_multiday symbol) (debug st')
    = (count (is_multiday symbol) (debug st)
       + one (bool_decide (symbol ∈ movers) && fires_on history symbol))%nat.
Proof.
  intros Hnd. revert st. induction Hnd as [|x l Hx Hnd IH]; intros st; cbn zeta.
  - cbn [fold_left].
    rewrite (bool_decide_eq_false_2 (symbol ∈ [])) by apply not_elem_of_nil.
    cbn [andb one]. repeat split; lia.
  - cbn [fold_left].
    destruct (detect_body_events eng history st x symbol) as (S1 & I1 & M1).
    destruct (IH (detect_body eng history st x)) as (S2 & I2 & M2).
    split; [by eapply same_settings_trans|].
    split; [congruence|].
    rewrite M2, M1.
    destruct (String.eqb_spec x symbol) as [->|Hne].
    + rewrite (bool_decide_eq_false_2 (symbol ∈ l)) by done.
      rewrite (bool_decide_eq_true_2 (symbol ∈ symbol :: l)) by apply list_elem_of_here.
      cbn [andb one]. lia.
    + assert (bool_decide (symbol ∈ x :: l) = bool_decide (symbol ∈ l)) as ->.
      { apply bool_decide_ext. rewrite elem_of_cons.
        split; [intros [E|?]; [congruence|done]|by right]. }
      cbn [andb one]. lia.
Qed.

Lemma history_all_empty (history : string → list float) (movers : list string)
    (symbol : string) :
  forallb (fun symbol => match history symbol with [] => true | _ => false end) movers = true →
  symbol ∈ movers → fires_on history symbol = false.
Proof.
  rewrite forallb_forall. intros H Hin.
  apply list_elem_of_In in Hin. specialize (H symbol Hin).
  unfold fires_on. by destruct (history symbol).
Qed.

(** The scheduled function logs one multi-day event for every primary
    mover on which the rule fires, and no other primary event. *)
Lemma DetectSecondOrderEffects_events (eng : Engine) (st : State) (symbol : string) :
  NoDup (primary_movers st) →
  let st' := DetectSecondOrderEffects eng st in
  same_settings st st'
  ∧ count (is_intraday symbol) (debug st') = count (is_intraday symbol) (debug st)
  ∧ count (is_multiday symbol) (debug st')
    = (count (is_multiday symbol) (debug st)
       + one (bool_decide (symbol ∈ primary_movers st) && multiday_fires eng st symbol))%nat.
Proof.
  intros Hnd. cbn zeta. unfold DetectSecondOrderEffects.
  change (multiday_fires eng st symbol)
    with (fires_on (History eng (primary_movers st) 5) symbol).
  set (history := History eng (primary_movers st) 5).
  destruct (forallb _ (primary_movers st)) eqn:Hall.
  - split; [apply same_settings_refl|]. split; [done|].
    destruct (bool_decide (symbol ∈ primary_movers st)) eqn:Hin; cbn [andb one]; [|lia].
    apply bool_decide_eq_true_1 in Hin.
    rewrite (history_all_empty history _ symbol Hall Hin). cbn. lia.
  - apply (detect_loop_events eng history (primary_movers st) st symbol Hnd).
Qed.

(** The data callback logs at most one intraday event per primary mover
    and no multi-day event. *)
Lemma OnData_events (eng : Engine) (data : Slice) (st : State) (symbol : string) :
  NoDup (primary_movers st) →
  let st' := OnData eng data st in
  same_settings st st'
  ∧ count (is_multiday symbol) (debug st') = count (is_multiday symbol) (debug st)
  ∧ (count (is_intraday symbol) (debug st') ≤ S (count (is_intraday symbol) (debug st)))%nat.
Proof.
  intros Hnd. cbn zeta. unfold OnData.
  set (body := fun (st : State) (symbol : string) => _).
  assert (Hbody : ∀ st x,
    same_settings st (body st x)
    ∧ count (is_multiday symbol) (debug (body st x)) = count (is_multiday symbol) (debug st)
    ∧ (count (is_intraday symbol) (debug (body st x))
       ≤ count (is_intraday symbol) (debug st) + one (String.eqb x symbol))%nat
    ∧ (count (is_intraday symbol) (debug st)
       ≤ count (is_intraday symbol) (debug (body st x)))%nat).
  { intros st0 x. unfold body.
    destruct (negb (ContainsKey data x)); [repeat split; lia|].
    destruct (Py.mem x (slice_bars data)); [|repeat split; lia].
    set (r := UnrealizedProfitPercent eng (Portfolio st0) x).
    destruct (0.05 <? abs r)%float; [|repeat split; lia].
    destruct (TriggerSecondOrderTrades_trades_only eng x r data
                (Debug (PrimaryEventDetected x r) st0)) as (S & _ & _ & E).
    destruct (E symbol) as [E1 E2].
    split; [exact S|]. rewrite E1, E2. cbn [Debug with_debug debug].
    rewrite !count_snoc. cbn [is_intraday is_multiday one].
    repeat split; lia. }
  generalize (primary_movers st) Hnd. intros movers Hnd'. clear Hnd.
  assert (G : ∀ st,
    same_settings st (fold_left body movers st)
    ∧ count (is_multiday symbol) (debug (fold_left body movers st))
      = count (is_multiday symbol) (debug st)
    ∧ (count (is_intraday symbol) (debug (fold_left body movers st))
       ≤ count (is_intraday symbol) (debug st) + one (bool_decide (symbol ∈ movers)))%nat).
  { induction Hnd' as [|x l Hx Hl IH]; intros st0.
    - cbn. repeat split; lia.
    - cbn [fold_left].
      destruct (Hbody st0 x) as (S1 & M1 & I1 & _).
      destruct (IH (body st0 x)) as (S2 & M2 & I2).
      split; [by eapply same_settings_trans|]. split; [congruence|].
      destruct (String.eqb_spec x symbol) as [->|Hne].
      + rewrite (bool_decide_eq_false_2 (symbol ∈ l)) in I2 by done.
        rewrite (bool_decide_eq_true_2 (symbol ∈ symbol :: l)) by apply list_elem_of_here.
        cbn [one] in *. lia.
      + assert (bool_decide (symbol ∈ x :: l) = bool_decide (symbol ∈ l)) as ->.
        { apply bool_decide_ext. rewrite elem_of_cons.
        split; [intros [E|?]; [congruence|done]|by right]. }
        cbn [one] in I1. lia. }
  destruct (G st) as (S & M & I). split; [exact S|]. split; [exact M|].
  destruct (bool_decide (symbol ∈ movers)); cbn [one] in I; lia.
Qed.

End Detection.

Section TieBreak.
Import Algo.




End TieBreak.

(* ===================================================================== *)
(** * The end-of-day sweep *)
(* ===================================================================== *)

Section Sweep.
Import Algo.

Lemma get_elem_of {V : Type} (k : string) (v : V) (d : list (string * V)) :
  Py.get k d = Some v → (k, v) ∈ d.
Proof.
  induction d as [|[k' v'] d IH]; cbn; [discriminate|].
  destruct (String.eqb_spec k' k) as [->|Hne].
  - intros [= ->]. apply list_elem_of_here.
  - intros H. apply list_elem_of_further. by apply IH.
Qed.

Lemma Invested_close_position_same (sym : string) (st : State) :
  Invested (close_position sym st) sym = false.
Proof.
  unfold close_position. destruct (Invested st sym) eqn:E; [|exact E].
  unfold Invested, Quantity. cbn. by rewrite lookup_insert_eq.
Qed.

Lemma Invested_close_position_other (x sym : string) (st : State) :
  x ≠ sym → Invested (close_position x st) sym = Invested st sym.
Proof.
  intros Hne. unfold close_position. destruct (Invested st x); [|done].
  unfold Invested, Quantity. cbn. by rewrite lookup_insert_ne.
Qed.

(** Closing a position that is not invested changes nothing. *)
Lemma close_position_closed (sym : string) (st : State) :
  Invested st sym = false → close_position sym st = st.
Proof. intros H. unfold close_position. by rewrite H. Qed.

(** The second loop leaves no listed position invested, and keeps flat
    what was flat. *)
Lemma close_all_not_invested (l : list string) (sym : string) (st : State) :
  sym ∈ l ∨ Invested st sym = false →
  Invested (fold_left (fun st sym => close_position sym st) l st) sym = false.
Proof.
  revert st. induction l as [|x l IH]; intros st H; cbn [fold_left].
  - destruct H as [H|H]; [by apply elem_of_nil in H|exact H].
  - apply IH. destruct (decide (x = sym)) as [->|Hne].
    + right. apply Invested_close_position_same.
    + rewrite Invested_close_position_other by done.
      destruct H as [H|H]; [|by right].
      apply elem_of_cons in H as [H|H]; [congruence|by left].
Qed.

Lemma due_in_positions_to_close (sym : string) (info : Position) (st : State) :
  Py.get sym (second_order_positions st) = Some info →
  5 < Py.days (Time st - entry_time info) →
  sym ∈ positions_to_close st.
Proof.
  intros Hget Hdue. unfold positions_to_close.
  apply list_elem_of_In, in_map_iff. exists (sym, info). split; [done|].
  apply list_elem_of_In, list_elem_of_filter. split; [exact Hdue|by apply get_elem_of].
Qed.

(** C2, at its failing input.  A position entered on day 0 at 9:45 is
    swept at the end of days 0 to 5.  At the sweep of day 5 (15:50) it has
    been held for more than 5 days (5 days, 6 hours and 5 minutes), yet the
    day count of that period is 5, which is not over 5: the position is
    still tracked and still invested after the sweep of day 5.  Only the
    sweep of day 6 closes it. *)
Theorem C2_still_open_after_day_five :
  Py.get "SWKS" (second_order_positions after_day_five)
  = Some {| entry_time := clock 0 9 45; direction := "LONG";
            reason := "Lagging suppliers to AAPL"; confidence := 0.6 |}
  ∧ Time after_day_five = clock 5 15 50
  ∧ 5 * Py.day < Time after_day_five - clock 0 9 45
  ∧ Time after_day_five - clock 0 9 45
    = 5 * Py.day + (6 * 3600 + 5 * 60) * Py.second
  ∧ Py.days (Time after_day_five - clock 0 9 45) = 5
  ∧ ("SWKS" ∉ positions_to_close after_day_five)
  ∧ Invested after_day_five "SWKS" = true
  ∧ Invested after_day_six "SWKS" = false.
Proof.
  repeat split; try (vm_compute; reflexivity).
  apply (bool_decide_unpack _). vm_compute. exact I.
Qed.

(** A tracked position is closed (no longer invested) by an end-of-day
    sweep that runs at least 6 whole days after its entry, when the
    holding period in days exceeds 5.  Closing a position that is not
    invested is a no-op. *)
Theorem sweep_closes_after_six_days (symbol sym : string) (info : Position) (st : State) :
  Py.get sym (second_order_positions st) = Some info →
  6 * Py.day ≤ Time st - entry_time info →
  Invested (OnEndOfDay symbol st) sym = false
  ∧ ∀ st' : State, Invested st' sym = false → close_position sym st' = st'.
Proof.
  intros Hget Hage. split; [|apply close_position_closed].
  unfold OnEndOfDay. apply close_all_not_invested. left.
  apply (due_in_positions_to_close sym info st Hget).
  unfold Py.days.
  assert (6 ≤ (Time st - entry_time info) / Py.day); [|lia].
  apply Z.div_le_lower_bound; [reflexivity|exact Hage].
Qed.

Lemma sweep_closes_after_six_days_witness :
  Py.get "SWKS" (second_order_positions day_six_evening)
  = Some {| entry_time := clock 0 9 45; direction := "LONG";
            reason := "Lagging suppliers to AAPL"; confidence := 0.6 |}
  ∧ 6 * Py.day ≤ Time day_six_evening - clock 0 9 45
  ∧ (Invested (OnEndOfDay "SPY" day_six_evening) "SWKS" = false
     ∧ ∀ st' : State, Invested st' "SWKS" = false → close_position "SWKS" st' = st').
Proof.
  assert (H1 : Py.get "SWKS" (second_order_positions day_six_evening)
               = Some {| entry_time := clock 0 9 45; direction := "LONG";
                         reason := "Lagging suppliers to AAPL"; confidence := 0.6 |})
    by (vm_compute; reflexivity).
  assert (H2 : 6 * Py.day ≤ Time day_six_evening - clock 0 9 45)
    by (vm_compute; discriminate).
  split; [exact H1|]. split; [exact H2|].
  apply (sweep_closes_after_six_days "SPY" "SWKS" _ day_six_evening H1 H2).
Defined.

End Sweep.

(* ===================================================================== *)
(** * The response cache *)
(* ===================================================================== *)

Section Cache.
Import SecondOrderAI.
Variable hash : string → Z.

(** An entry younger than 300 seconds is returned, nothing is posted and
    the cache is left as it is. *)
Lemma cached_query_fresh (prefix : string) (cache : gmap string CacheEntry)
    (now : Z) (prompt : string) (reply : option Reply) (entry : CacheEntry) :
  cache !! (prefix +:+ pretty (hash prompt)) = Some entry →
  0 ≤ now - timestamp entry < 300 * Py.second →
  cached_query hash prefix cache now prompt reply = served (response entry) cache.
Proof.
  intros Hhit Hage. unfold cached_query. rewrite Hhit.
  assert (Hs : Py.seconds (now - timestamp entry) < 300).
  { unfold Py.seconds. rewrite Z.mod_small.
    - apply Z.div_lt_upper_bound; [reflexivity|]. unfold Py.second in *. lia.
    - unfold Py.day, Py.second in *. lia. }
  by rewrite (proj2 (Z.ltb_lt _ _) Hs).
Qed.

(** An entry between 300 seconds and one day old is not served: the
    request is posted and the answer replaces the entry. *)
Lemma cached_query_stale_same_day (prefix : string) (cache : gmap string CacheEntry)
    (now : Z) (prompt : string) (r : Reply) (entry : CacheEntry) :
  cache !! (prefix +:+ pretty (hash prompt)) = Some entry →
  300 * Py.second ≤ now - timestamp entry < Py.day →
  cached_query hash prefix cache now prompt (Some r)
  = {| returned := Some (content r);
       cache_after :=
         <[prefix +:+ pretty (hash prompt) :=
             {| response := content r; timestamp := received_at r |}]> cache;
       posted := true |}.
Proof.
  intros Hhit Hage. unfold cached_query. rewrite Hhit.
  assert (Hs : 300 ≤ Py.seconds (now - timestamp entry)).
  { unfold Py.seconds. rewrite Z.mod_small by (unfold Py.day, Py.second in *; lia).
    apply Z.div_le_lower_bound; [reflexivity|]. unfold Py.second in *. lia. }
  by rewrite (proj2 (Z.ltb_ge _ _) Hs).
Qed.

(** An empty cache always posts. *)
Lemma cached_query_miss (prefix : string) (cache : gmap string CacheEntry)
    (now : Z) (prompt : string) (reply : option Reply) :
  cache !! (prefix +:+ pretty (hash prompt)) = None →
  posted (cached_query hash prefix cache now prompt reply) = true.
Proof.
  intros Hmiss. unfold cached_query. rewrite Hmiss. by destruct reply.
Qed.

(** The freshness test reads the [seconds] field of the age, which
    forgets whole days. *)
Lemma seconds_forgets_days (age : Z) : Py.seconds (age + Py.day) = Py.seconds age.
Proof.
  unfold Py.seconds.
  replace (age + Py.day) with (age + 1 * Py.day) by lia.
  by rewrite Z.mod_add.
Qed.

(** C6 at its failing input.  An entry cached one day and ten seconds ago
    is far older than five minutes, yet both query methods serve it: the
    cached text is returned, nothing is posted, the entry stays. *)
Theorem C6_day_old_entry_is_served (prompt text : string) (cached_at : Z)
    (reply : option Reply) :
  300 * Py.second ≤ a_day_later cached_at - cached_at
  ∧ _query_perplexity hash
      (one_entry ("perplexity_" +:+ pretty (hash prompt)) text cached_at)
      (a_day_later cached_at) prompt reply
    = served text (one_entry ("perplexity_" +:+ pretty (hash prompt)) text cached_at)
  ∧ _query_claude hash
      (one_entry ("claude_" +:+ pretty (hash prompt)) text cached_at)
      (a_day_later cached_at) prompt reply
    = served text (one_entry ("claude_" +:+ pretty (hash prompt)) text cached_at).
Proof.
  unfold a_day_later. split; [unfold Py.day, Py.second; lia|].
  assert (Hs : (Py.seconds (cached_at + Py.day + 10 * Py.second - cached_at) <? 300) = true).
  { replace (cached_at + Py.day + 10 * Py.second - cached_at)
      with (10 * Py.second + Py.day) by lia.
    rewrite seconds_forgets_days. reflexivity. }
  split; unfold _query_perplexity, _query_claude, cached_query, one_entry;
    rewrite lookup_singleton_eq; cbn [timestamp response]; by rewrite Hs.
Qed.

End Cache.

(* ===================================================================== *)
(** * More on the signal generator *)
(* ===================================================================== *)

Section FloatOrderMore.

Lemma lex3_flip a b : lex3 a b ≠ Gt → lex3 b a ≠ Lt.
Proof.
  unfold lex3. destruct a as [[a1 a2] a3], b as [[b1 b2] b3]; cbn.
  destruct (Z.compare_spec a1 b1), (Z.compare_spec a2 b2), (Z.compare_spec a3 b3),
    (Z.compare_spec b1 a1), (Z.compare_spec b2 a2), (Z.compare_spec b3 a3);
    try congruence; try lia.
Qed.

(** [x <= y] excludes [y < x]. *)
Lemma float_le_not_gt (x y : float) :
  (x <=? y)%float = true → (y <? x)%float = false.
Proof.
  rewrite leb_spec, ltb_spec. unfold SFleb, SFltb.
  destruct (SFcompare (Prim2SF x) (Prim2SF y)) as [c|] eqn:E; [|discriminate].
  apply SFcompare_Some in E as (Hx & Hy & E).
  rewrite fcompare_rank by assumption.
  intros H. pose proof (lex3_flip (rank x) (rank y)) as F. rewrite E in F.
  destruct (lex3 (rank y) (rank x)); try reflexivity.
  exfalso. apply F; [by destruct c|reflexivity].
Qed.

End FloatOrderMore.

Section SignalGeneratorMore.
Import SecondOrderAI.

(** The threshold is strict: a mapping all of whose records have a
    confidence of at most 0.6 gives no signal at all. *)
Theorem no_signal_at_or_below_threshold (second_order_map : list (string * list Entity)) :
  Forall (fun e => (confidence e <=? 0.6)%float = true) (records second_order_map) →
  generate_trade_signals second_order_map = [].
Proof.
  intros Hlow.
  assert (Hq : qualifying second_order_map = []).
  { unfold qualifying. induction Hlow as [|e l He Hl IH]; [done|].
    rewrite filter_cons, decide_False; [exact IH|].
    rewrite (float_le_not_gt _ _ He). discriminate. }
  unfold generate_trade_signals. by rewrite candidate_signals_qualifying, Hq.
Qed.

Lemma no_signal_at_or_below_threshold_witness :
  Forall (fun e => (confidence e <=? 0.6)%float = true) (records (fallback_records "A" "B"))
  ∧ generate_trade_signals (fallback_records "A" "B") = [].
Proof.
  assert (H : Forall (fun e => (confidence e <=? 0.6)%float = true)
                (records (fallback_records "A" "B"))).
  { repeat constructor. }
  split; [exact H|].
  apply (no_signal_at_or_below_threshold (fallback_records "A" "B")). exact H.
Defined.

(** Every returned signal is the signal of a record of the input whose
    confidence is above 0.6: its size multiplier is that record's
    confidence times impact magnitude, its action, strategy, stop and
    target are the ones computed from that record. *)
Theorem every_signal_stems_from_a_record (second_order_map : list (string * list Entity)) :
  Forall (stems_from second_order_map) (generate_trade_signals second_order_map).
Proof.
  apply Forall_forall. intros s Hs.
  unfold generate_trade_signals in Hs.
  apply (subseteq_take 10) in Hs.
  rewrite sorted_reverse_Permutation, candidate_signals_qualifying in Hs.
  apply list_elem_of_fmap in Hs as (e & -> & He).
  apply list_elem_of_filter in He as [Hc He].
  exists e. by repeat split.
Qed.

(** The cut keeps the largest: the returned signals together with the
    dropped ones are exactly the candidates, as many as ten are returned
    when there are that many, and no dropped candidate has a larger size
    multiplier than a returned one. *)
Theorem top_ten_by_size (second_order_map : list (string * list Entity)) :
  Forall numeric (qualifying second_order_map) →
  generate_trade_signals second_order_map ++ dropped_signals second_order_map
    ≡ₚ signal_of <$> qualifying second_order_map
  ∧ length (generate_trade_signals second_order_map)
    = (10 `min` length (qualifying second_order_map))%nat
  ∧ Forall (fun d => Forall (fun s => by_size_desc s d)
                       (generate_trade_signals second_order_map))
      (dropped_signals second_order_map).
Proof.
  intros Hnum. unfold generate_trade_signals, dropped_signals.
  set (ranked := Py.sorted_reverse size_multiplier (candidate_signals second_order_map)).
  assert (Hperm : ranked ≡ₚ signal_of <$> qualifying second_order_map).
  { unfold ranked. by rewrite sorted_reverse_Permutation, candidate_signals_qualifying. }
  split; [by rewrite take_drop|]. split.
  - by rewrite length_take, Hperm, length_fmap.
  - assert (Hs : StronglySorted by_size_desc (take 10 ranked ++ drop 10 ranked)).
    { rewrite take_drop. apply sorted_reverse_sorted.
      by apply Forall_numeric_signals. }
    apply Forall_forall. intros d Hd. apply Forall_forall. intros s Hs'.
    by apply (StronglySorted_app_1_elem_of _ _ _ _ _ Hs).
Qed.

Lemma top_ten_by_size_witness :
  Forall numeric (qualifying eleven_candidates)
  ∧ (generate_trade_signals eleven_candidates ++ dropped_signals eleven_candidates
       ≡ₚ signal_of <$> qualifying eleven_candidates
     ∧ length (generate_trade_signals eleven_candidates)
       = (10 `min` length (qualifying eleven_candidates))%nat
     ∧ Forall (fun d => Forall (fun s => by_size_desc s d)
                          (generate_trade_signals eleven_candidates))
         (dropped_signals eleven_candidates)).
Proof.
  assert (H : Forall numeric (qualifying eleven_candidates)).
  { vm_compute. repeat constructor. }
  split; [exact H|].
  apply (top_ten_by_size eleven_candidates). exact H.
Defined.

(** A DIRECT_EQUITY signal always comes from a record with confidence
    above 0.8 and a lag under 5 days, and so always carries the wide stop
    of 0.05. *)
Theorem direct_equity_has_wide_stop (e : Entity) :
  strategy (signal_of e) = "DIRECT_EQUITY" →
  (0.8 <? confidence e)%float = true
  ∧ time_horizon (signal_of e) < 5
  ∧ stop_loss (signal_of e) = 0.05%float.
Proof.
  cbn [strategy signal_of time_horizon stop_loss]. unfold _determine_strategy.
  destruct (0.8 <? confidence e)%float; cbn [andb].
  - destruct (Z.ltb_spec (time_lag_days e) 5); [done|].
    destruct (_ && _); [discriminate|]. destruct (Py.mem _ _); discriminate.
  - destruct (_ && _); [discriminate|]. destruct (Py.mem _ _); discriminate.
Qed.

Lemma direct_equity_has_wide_stop_witness :
  strategy (signal_of (entity_C "supplier" "")) = "DIRECT_EQUITY"
  ∧ ((0.8 <? confidence (entity_C "supplier" ""))%float = true
     ∧ time_horizon (signal_of (entity_C "supplier" "")) < 5
     ∧ stop_loss (signal_of (entity_C "supplier" "")) = 0.05%float).
Proof.
  assert (H : strategy (signal_of (entity_C "supplier" "")) = "DIRECT_EQUITY")
    by reflexivity.
  split; [exact H|].
  apply (direct_equity_has_wide_stop (entity_C "supplier" "")). exact H.
Defined.

(** A PAIRS_TRADE is only ever proposed for a competitor or an inverse
    relationship, and only when the record misses both rows above it in
    the table. *)
Theorem pairs_trade_only_for_rivals (e : Entity) :
  strategy (signal_of e) = "PAIRS_TRADE" →
  (relationship e = "competitor" ∨ relationship e = "inverse")
  ∧ (0.8 <? confidence e)%float && (time_lag_days e <? 5) = false
  ∧ (0.7 <? confidence e)%float && (time_lag_days e <? 10) = false.
Proof.
  cbn [strategy signal_of]. unfold _determine_strategy.
  destruct (_ && _); [discriminate|].
  destruct (_ && _); [discriminate|].
  unfold Py.mem. cbn [existsb].
  destruct (String.eqb_spec (relationship e) "competitor") as [->|_]; [auto|].
  destruct (String.eqb_spec (relationship e) "inverse") as [->|_]; [auto|].
  discriminate.
Qed.

Lemma pairs_trade_only_for_rivals_witness :
  strategy (signal_of (rival_record)) = "PAIRS_TRADE"
  ∧ ((relationship rival_record = "competitor"
      ∨ relationship rival_record = "inverse")
     ∧ (0.8 <? confidence rival_record)%float
       && (time_lag_days rival_record <? 5) = false
     ∧ (0.7 <? confidence rival_record)%float
       && (time_lag_days rival_record <? 10) = false).
Proof.
  assert (H : strategy (signal_of rival_record) = "PAIRS_TRADE") by reflexivity.
  split; [exact H|].
  apply (pairs_trade_only_for_rivals rival_record). exact H.
Defined.

End SignalGeneratorMore.

(* ===================================================================== *)
(** * More on the response cache *)
(* ===================================================================== *)

Section CacheMore.
Import SecondOrderAI.
Variable hash : string → Z.

Lemma seconds_of_days_and_rest (n r : Z) :
  0 ≤ r < Py.day → Py.seconds (n * Py.day + r) = r / Py.second.
Proof.
  intros Hr. unfold Py.seconds.
  rewrite Z.add_comm, Z.mod_add by discriminate.
  by rewrite Z.mod_small.
Qed.

(** The freshness window repeats every 24 hours: an entry whose age is any
    whole number of days plus less than 300 seconds is served from the
    cache, without a request. *)
Theorem cache_window_wraps_every_day (prefix : string) (cache : gmap string CacheEntry)
    (now : Z) (prompt : string) (reply : option Reply) (entry : CacheEntry) (n r : Z) :
  cache !! cache_key hash prefix prompt = Some entry →
  now - timestamp entry = n * Py.day + r →
  0 ≤ r < 300 * Py.second →
  cached_query hash prefix cache now prompt reply = served (response entry) cache.
Proof.
  intros Hhit Hage Hr. unfold cached_query, cache_key in *. rewrite Hhit, Hage.
  rewrite seconds_of_days_and_rest by (unfold Py.day, Py.second in *; lia).
  assert (Hs : r / Py.second < 300).
  { apply Z.div_lt_upper_bound; [reflexivity|]. unfold Py.second in *. lia. }
  by rewrite (proj2 (Z.ltb_lt _ _) Hs).
Qed.

(** An entry whose age, whole days set aside, is 300 seconds or more is
    not served: the request is posted; the answer replaces the entry, and
    when the call fails nothing is returned and the old entry stays. *)
Theorem stale_entry_is_refreshed (prefix : string) (cache : gmap string CacheEntry)
    (now : Z) (prompt : string) (r : Reply) (entry : CacheEntry) :
  cache !! cache_key hash prefix prompt = Some entry →
  300 * Py.second ≤ (now - timestamp entry) mod Py.day →
  cached_query hash prefix cache now prompt (Some r)
  = {| returned := Some (content r);
       cache_after :=
         <[cache_key hash prefix prompt :=
             {| response := content r; timestamp := received_at r |}]> cache;
       posted := true |}
  ∧ cached_query hash prefix cache now prompt None
    = {| returned := None; cache_after := cache; posted := true |}.
Proof.
  intros Hhit Hage. unfold cached_query, cache_key in *. rewrite Hhit.
  assert (Hs : 300 ≤ Py.seconds (now - timestamp entry)).
  { unfold Py.seconds. apply Z.div_le_lower_bound; [reflexivity|].
    unfold Py.second in *. lia. }
  by rewrite (proj2 (Z.ltb_ge _ _) Hs).
Qed.

(** Round trip: once a request has been posted and answered, the same
    prompt asked again within 300 seconds of the answer gets the same
    text back, and nothing is posted. *)
Theorem cached_answer_round_trip (prefix : string) (cache : gmap string CacheEntry)
    (now now' : Z) (prompt : string) (r : Reply) (reply' : option Reply) :
  posted (cached_query hash prefix cache now prompt (Some r)) = true →
  0 ≤ now' - received_at r < 300 * Py.second →
  cached_query hash prefix
    (cache_after (cached_query hash prefix cache now prompt (Some r))) now' prompt reply'
  = served (content r) (cache_after (cached_query hash prefix cache now prompt (Some r))).
Proof.
  intros Hposted Hage.
  assert (Hc : cache_after (cached_query hash prefix cache now prompt (Some r))
               = <[cache_key hash prefix prompt :=
                     {| response := content r; timestamp := received_at r |}]> cache).
  { unfold cached_query, cache_key in *.
    destruct (cache !! (prefix +:+ pretty (hash prompt))) as [entry|]; [|done].
    destruct (Py.seconds (now - timestamp entry) <? 300); [discriminate|done]. }
  rewrite Hc.
  apply (cached_query_fresh hash prefix _ now' prompt reply'
           {| response := content r; timestamp := received_at r |}).
  - apply lookup_insert_eq.
  - exact Hage.
Qed.

(** A query changes the cache at its own key at most, and never removes
    an entry: nothing is evicted, a stale entry is only ever overwritten. *)
Theorem query_only_touches_its_key (prefix : string) (cache : gmap string CacheEntry)
    (now : Z) (prompt : string) (reply : option Reply) :
  delete (cache_key hash prefix prompt)
    (cache_after (cached_query hash prefix cache now prompt reply))
  = delete (cache_key hash prefix prompt) cache
  ∧ dom cache ⊆ dom (cache_after (cached_query hash prefix cache now prompt reply)).
Proof.
  unfold cached_query, cache_key.
  destruct (cache !! (prefix +:+ pretty (hash prompt))) as [entry|];
    [destruct (Py.seconds (now - timestamp entry) <? 300)|];
    try destruct reply as [r|]; cbn [cache_after]; split;
    try done; try apply delete_insert_eq; rewrite dom_insert; set_solver.
Qed.

(** The two collaborators never share an entry: whatever a perplexity
    query has cached, a claude query, for any prompt at any time, posts
    its request. *)
Theorem collaborators_do_not_share_entries (now now' : Z) (prompt prompt' : string)
    (reply reply' : option Reply) :
  posted (_query_claude hash
            (cache_after (_query_perplexity hash ∅ now prompt reply))
            now' prompt' reply') = true.
Proof.
  unfold _query_claude. apply cached_query_miss.
  unfold _query_perplexity, cached_query. rewrite lookup_empty.
  destruct reply as [r|]; cbn [cache_after]; [|apply lookup_empty].
  rewrite lookup_insert_ne; [apply lookup_empty|].
  cbn. discriminate.
Qed.

End CacheMore.

Section CacheWitnesses.
Import SecondOrderAI.

Lemma cache_window_wraps_every_day_witness :
  one_entry (cache_key constant_hash "claude_" "q") "old" 0
    !! cache_key constant_hash "claude_" "q"
  = Some {| response := "old"; timestamp := 0 |}
  ∧ (3 * Py.day + 5 * Py.second) - 0 = 3 * Py.day + 5 * Py.second
  ∧ 0 ≤ 5 * Py.second < 300 * Py.second
  ∧ cached_query constant_hash "claude_"
      (one_entry (cache_key constant_hash "claude_" "q") "old" 0)
      (3 * Py.day + 5 * Py.second) "q" None
    = served "old" (one_entry (cache_key constant_hash "claude_" "q") "old" 0).
Proof.
  assert (H1 : one_entry (cache_key constant_hash "claude_" "q") "old" 0
                 !! cache_key constant_hash "claude_" "q"
               = Some {| response := "old"; timestamp := 0 |}) by reflexivity.
  assert (H2 : (3 * Py.day + 5 * Py.second) - 0 = 3 * Py.day + 5 * Py.second) by reflexivity.
  assert (H3 : 0 ≤ 5 * Py.second < 300 * Py.second) by (vm_compute; split; [discriminate|reflexivity]).
  split; [exact H1|]. split; [exact H2|]. split; [exact H3|].
  exact (cache_window_wraps_every_day constant_hash "claude_" _ _ "q" None _ 3 _ H1 H2 H3).
Defined.

Lemma stale_entry_is_refreshed_witness :
  one_entry (cache_key constant_hash "claude_" "q") "old" 0
    !! cache_key constant_hash "claude_" "q"
  = Some {| response := "old"; timestamp := 0 |}
  ∧ 300 * Py.second ≤ (400 * Py.second - 0) mod Py.day
  ∧ (cached_query constant_hash "claude_"
       (one_entry (cache_key constant_hash "claude_" "q") "old" 0)
       (400 * Py.second) "q" (Some (answer "new" (401 * Py.second)))
     = {| returned := Some "new";
          cache_after :=
            <[cache_key constant_hash "claude_" "q" :=
                {| response := "new"; timestamp := 401 * Py.second |}]>
              (one_entry (cache_key constant_hash "claude_" "q") "old" 0);
          posted := true |}
     ∧ cached_query constant_hash "claude_"
         (one_entry (cache_key constant_hash "claude_" "q") "old" 0)
         (400 * Py.second) "q" None
       = {| returned := None;
            cache_after := one_entry (cache_key constant_hash "claude_" "q") "old" 0;
            posted := true |}).
Proof.
  assert (H1 : one_entry (cache_key constant_hash "claude_" "q") "old" 0
                 !! cache_key constant_hash "claude_" "q"
               = Some {| response := "old"; timestamp := 0 |}) by reflexivity.
  assert (H2 : 300 * Py.second ≤ (400 * Py.second - 0) mod Py.day)
    by (vm_compute; discriminate).
  split; [exact H1|]. split; [exact H2|].
  exact (stale_entry_is_refreshed constant_hash "claude_" _ (400 * Py.second) "q"
           (answer "new" (401 * Py.second)) _ H1 H2).
Defined.

Lemma cached_answer_round_trip_witness :
  posted (cached_query constant_hash "perplexity_" ∅ 0 "q" (Some (answer "a" 7))) = true
  ∧ 0 ≤ 100 - received_at (answer "a" 7) < 300 * Py.second
  ∧ cached_query constant_hash "perplexity_"
      (cache_after (cached_query constant_hash "perplexity_" ∅ 0 "q" (Some (answer "a" 7))))
      100 "q" None
    = served "a"
        (cache_after (cached_query constant_hash "perplexity_" ∅ 0 "q" (Some (answer "a" 7)))).
Proof.
  assert (H1 : posted (cached_query constant_hash "perplexity_" ∅ 0 "q"
                         (Some (answer "a" 7))) = true) by reflexivity.
  assert (H2 : 0 ≤ 100 - received_at (answer "a" 7) < 300 * Py.second)
    by (vm_compute; split; [discriminate|reflexivity]).
  split; [exact H1|]. split; [exact H2|].
  exact (cached_answer_round_trip constant_hash "perplexity_" ∅ 0 100 "q"
           (answer "a" 7) None H1 H2).
Defined.

End CacheWitnesses.

Section Collision.
Import SecondOrderAI.

(** The key is the hash of the prompt, not the prompt: two prompts with
    the same hash share one entry, so the answer cached for the first is
    served, while fresh, to the second. *)
Theorem same_hash_same_answer (hash : string → Z) (prefix : string)
    (now now' : Z) (prompt prompt' : string) (r : Reply) (reply' : option Reply) :
  hash prompt = hash prompt' →
  0 ≤ now' - received_at r < 300 * Py.second →
  returned (cached_query hash prefix
              (cache_after (cached_query hash prefix ∅ now prompt (Some r)))
              now' prompt' reply')
  = Some (content r)
  ∧ posted (cached_query hash prefix
              (cache_after (cached_query hash prefix ∅ now prompt (Some r)))
              now' prompt' reply')
    = false.
Proof.
  intros Hhash Hage.
  assert (Hc : cache_after (cached_query hash prefix ∅ now prompt (Some r))
               = <[cache_key hash prefix prompt' :=
                     {| response := content r; timestamp := received_at r |}]> ∅).
  { unfold cached_query, cache_key. rewrite lookup_empty. cbn. by rewrite Hhash. }
  rewrite Hc.
  rewrite (cached_query_fresh hash prefix _ now' prompt' reply'
             {| response := content r; timestamp := received_at r |});
    [done|apply lookup_insert_eq|exact Hage].
Qed.

Lemma same_hash_same_answer_witness :
  constant_hash "what moved NVDA" = constant_hash "what moved TSLA"
  ∧ 0 ≤ 60 * Py.second - received_at (answer "NVDA beat" 0) < 300 * Py.second
  ∧ (returned (cached_query constant_hash "perplexity_"
                 (cache_after (cached_query constant_hash "perplexity_" ∅ 0
                                 "what moved NVDA" (Some (answer "NVDA beat" 0))))
                 (60 * Py.second) "what moved TSLA" None)
     = Some "NVDA beat"
     ∧ posted (cached_query constant_hash "perplexity_"
                 (cache_after (cached_query constant_hash "perplexity_" ∅ 0
                                 "what moved NVDA" (Some (answer "NVDA beat" 0))))
                 (60 * Py.second) "what moved TSLA" None)
       = false).
Proof.
  assert (H1 : constant_hash "what moved NVDA" = constant_hash "what moved TSLA")
    by reflexivity.
  assert (H2 : 0 ≤ 60 * Py.second - received_at (answer "NVDA beat" 0) < 300 * Py.second)
    by (vm_compute; split; [discriminate|reflexivity]).
  split; [exact H1|]. split; [exact H2|].
  exact (same_hash_same_answer constant_hash "perplexity_" 0 (60 * Py.second)
           "what moved NVDA" "what moved TSLA" (answer "NVDA beat" 0) None H1 H2).
Defined.

End Collision.

(* ===================================================================== *)
(** * What all callbacks preserve *)
(* ===================================================================== *)

(** A relation between the state before and after that is reflexive and
    transitive, and that holds across an entry, a primary-event log line,
    the closing of a position and a tick of the clock, holds across every
    callback and every sequence of callbacks. *)
Section Preserved.
Import Algo.
Variable R : State → State → Prop.
Hypothesis R_refl : ∀ st, R st st.
Hypothesis R_trans : ∀ a b c, R a b → R b c → R a c.
Hypothesis R_entry : ∀ eng symbol direction reason conf st,
  R st (ExecuteSecondOrderTrade eng symbol direction reason conf st).
Hypothesis R_log : ∀ m st, is_entry m = false → R st (Debug m st).
Hypothesis R_close : ∀ sym st, R st (close_position sym st).
Hypothesis R_clock : ∀ now st, R st (with_Time now st).

Lemma fold_preserved {X : Type} (f : State → X → State) (l : list X) (st : State) :
  (∀ st x, R st (f st x)) → R st (fold_left f l st).
Proof.
  intros Hf. revert st. induction l as [|x l IH]; intros st; cbn; [apply R_refl|].
  eapply R_trans; [apply Hf|apply IH].
Qed.

Lemma TriggerSecondOrderTrades_preserved (eng : Engine) (primary_symbol : string)
    (move : float) (data : Slice) (st : State) :
  R st (TriggerSecondOrderTrades eng primary_symbol move data st).
Proof.
  unfold TriggerSecondOrderTrades.
  destruct (Py.get primary_symbol (supply_chains st)); [|apply R_refl].
  assert (Heach : ∀ tickers direction reason conf st,
    R st (trade_each eng data tickers direction reason conf st)).
  { intros. apply fold_preserved. intros st' x.
    destruct (ContainsKey data x); [apply R_entry|apply R_refl]. }
  destruct (0 <? move)%float; (eapply R_trans; apply Heach).
Qed.

Lemma AnalyzeSecondOrderOpportunities_preserved (eng : Engine) (primary_symbol : string)
    (move : float) (st : State) :
  R st (AnalyzeSecondOrderOpportunities eng primary_symbol move st).
Proof.
  unfold AnalyzeSecondOrderOpportunities.
  destruct (Py.get primary_symbol (supply_chains st)); [|apply R_refl].
  apply fold_preserved. intros st' item. apply fold_preserved. intros st'' ticker.
  unfold analyze_ticker.
  destruct (History eng [ticker] 20 ticker) as [|c cs]; [apply R_refl|].
  destruct (iloc_neg 1 (c :: cs)); [|apply R_refl].
  destruct (iloc_neg 5 (c :: cs)); [|apply R_refl].
  match goal with |- context [if ?b then _ else st''] => destruct b end;
    [apply R_entry|apply R_refl].
Qed.

Lemma step_preserved (ev : Event) (st : State) : R st (step ev st).
Proof.
  destruct ev as [eng data|eng|symbol|eng symbol direction reason conf|now]; cbn.
  - unfold OnData. apply fold_preserved. intros st' symbol.
    destruct (negb (ContainsKey data symbol)); [apply R_refl|].
    destruct (Py.mem symbol (slice_bars data)); [|apply R_refl].
    destruct (0.05 <? _)%float; [|apply R_refl].
    eapply R_trans; [|apply TriggerSecondOrderTrades_preserved].
    by apply R_log.
  - unfold DetectSecondOrderEffects.
    destruct (forallb _ _); [apply R_refl|].
    apply fold_preserved. intros st' symbol.
    destruct (History eng (primary_movers st) 5 symbol) as [|c cs]; [apply R_refl|].
    destruct (0.10 <? _)%float; [|apply R_refl].
    eapply R_trans; [|apply AnalyzeSecondOrderOpportunities_preserved].
    by apply R_log.
  - unfold OnEndOfDay. apply fold_preserved. intros. apply R_close.
  - apply R_entry.
  - apply R_clock.
Qed.

Lemma run_preserved (evs : list Event) (st : State) : R st (run evs st).
Proof. unfold run. apply fold_preserved. intros. apply step_preserved. Qed.

End Preserved.

Section Invariants.
Import Algo.

Lemma get_set_eq {V : Type} (k : string) (v : V) (d : list (string * V)) :
  Py.get k (Py.set k v d) = Some v.
Proof.
  induction d as [|[k' v'] d IH]; cbn.
  - by rewrite String.eqb_refl.
  - destruct (String.eqb k' k) eqn:E; cbn; [by rewrite String.eqb_refl|by rewrite E].
Qed.

Lemma get_set_ne {V : Type} (k k' : string) (v : V) (d : list (string * V)) :
  k ≠ k' → Py.get k' (Py.set k v d) = Py.get k' d.
Proof.
  intros Hne. induction d as [|[k0 v0] d IH]; cbn.
  - by rewrite (proj2 (String.eqb_neq k k')).
  - destruct (String.eqb_spec k0 k) as [->|H0]; cbn.
    + by rewrite !(proj2 (String.eqb_neq k k')).
    + by rewrite IH.
Qed.

Lemma get_del_ne {V : Type} (k k' : string) (d : list (string * V)) :
  k ≠ k' → Py.get k' (Py.del k d) = Py.get k' d.
Proof.
  intros Hne. induction d as [|[k0 v0] d IH]; cbn; [done|].
  destruct (String.eqb_spec k0 k) as [->|H0]; cbn.
  - by rewrite (proj2 (String.eqb_neq k k')).
  - by rewrite IH.
Qed.

Lemma ExecuteSecondOrderTrade_cases (eng : Engine)
    (symbol direction reason : string) (conf : float) (st : State) :
  ExecuteSecondOrderTrade eng symbol direction reason conf st = st
  ∨ (Invested st symbol = false ∧ (current_positions st < max_positions st)%nat).
Proof.
  destruct (Invested st symbol) eqn:E.
  - left. apply ExecuteSecondOrderTrade_refused. by left.
  - destruct (Nat.leb_spec (max_positions st) (current_positions st)).
    + left. apply ExecuteSecondOrderTrade_refused. by right.
    + by right.
Qed.

Lemma one_order_per_entry_entry (eng : Engine) (symbol direction reason : string)
    (conf : float) (st : State) :
  one_order_per_entry st (ExecuteSecondOrderTrade eng symbol direction reason conf st).
Proof.
  unfold ExecuteSecondOrderTrade, one_order_per_entry.
  destruct (Invested st symbol); [lia|].
  destruct (_ <=? _)%nat; [lia|].
  destruct (String.eqb direction "LONG"); [|destruct (String.eqb direction "SHORT")];
    cbn [orders debug with_positions StopMarketOrder Debug SetHoldings
         with_orders with_debug with_Portfolio];
    rewrite ?length_app, ?count_snoc; cbn [length is_entry one]; lia.
Qed.

(** Every logged entry has exactly one order, its stop: over any sequence
    of callbacks the number of orders submitted equals the number of
    entries logged (no second, take-profit order is ever placed). *)
Theorem one_order_for_every_entry (evs : list Event) (st : State) :
  (length (orders (run evs st)) + count is_entry (debug st)
   = length (orders st) + count is_entry (debug (run evs st)))%nat.
Proof.
  apply (run_preserved one_order_per_entry); unfold one_order_per_entry.
  - lia.
  - lia.
  - apply one_order_per_entry_entry.
  - intros m s Hm. cbn [orders debug Debug with_debug].
    rewrite count_snoc, Hm. cbn [one]. lia.
  - intros sym s. unfold close_position.
    destruct (Invested s sym); cbn [orders debug with_positions Debug Liquidate
                                     with_debug with_Portfolio];
      rewrite ?count_snoc; cbn [is_entry one]; lia.
  - intros. cbn [orders debug with_Time]. lia.
Qed.

Lemma keeps_holdings_tracked_entry (eng : Engine) (symbol direction reason : string)
    (conf : float) (st : State) :
  keeps_holdings_tracked st (ExecuteSecondOrderTrade eng symbol direction reason conf st).
Proof.
  intros Htracked.
  destruct (ExecuteSecondOrderTrade_cases eng symbol direction reason conf st)
    as [->|[Hflat Hroom]]; [done|].
  destruct (ExecuteSecondOrderTrade_accepted eng symbol direction reason conf st Hflat Hroom)
    as (Hpos & Hothers & _).
  intros s Hs. rewrite Hpos.
  destruct (decide (symbol = s)) as [->|Hne].
  - rewrite get_set_eq. by eexists.
  - rewrite get_set_ne by done. apply Htracked. rewrite <- Hothers; [done|congruence].
Qed.

(** No holding is ever left untracked: if every invested holding has its
    entry in [second_order_positions], that is still so after any
    sequence of callbacks (so the end-of-day sweep sees every holding the
    algorithm has). *)
Theorem holdings_stay_tracked (evs : list Event) (st : State) :
  every_holding_tracked st → every_holding_tracked (run evs st).
Proof.
  apply (run_preserved keeps_holdings_tracked); unfold keeps_holdings_tracked.
  - auto.
  - auto.
  - apply keeps_holdings_tracked_entry.
  - intros m s _ H. exact H.
  - intros sym s H x Hx. unfold close_position in *.
    destruct (Invested s sym) eqn:E; [|by apply H].
    destruct (decide (sym = x)) as [->|Hne].
    + unfold Invested, Quantity in Hx. cbn in Hx.
      rewrite lookup_insert_eq in Hx. discriminate.
    + cbn. rewrite get_del_ne by done. apply H.
      unfold Invested, Quantity in *. cbn in Hx.
      by rewrite lookup_insert_ne in Hx.
  - intros now s H. exact H.
Qed.

(** [Initialize] leaves every holding flat. *)
Lemma Initialize_flat (start : Z) (s : string) : Invested (Initialize start) s = false.
Proof.
  assert (Hall : map_Forall (fun (_ : string) (q : Z) => q = 0) (Portfolio (Initialize start))).
  { change (Portfolio (Initialize start)) with (Portfolio (Initialize 0)).
    apply (bool_decide_unpack _). vm_compute. exact I. }
  unfold Invested, Quantity.
  destruct (Portfolio (Initialize start) !! s) as [q|] eqn:E; [|done].
  by rewrite (Hall s q E).
Qed.

Lemma holdings_stay_tracked_witness :
  every_holding_tracked (Initialize 0)
  ∧ every_holding_tracked (run through_day_five (Initialize 0)).
Proof.
  assert (H : every_holding_tracked (Initialize 0)).
  { intros s Hs. rewrite Initialize_flat in Hs. discriminate. }
  split; [exact H|].
  apply (holdings_stay_tracked through_day_five (Initialize 0)). exact H.
Defined.

End Invariants.

(* ===================================================================== *)
(** * More on the end-of-day sweep *)
(* ===================================================================== *)

Section SweepMore.
Import Algo.

Lemma del_sublist {V : Type} (k : string) (d : list (string * V)) :
  Py.del k d `sublist_of` d.
Proof.
  induction d as [|[k' v'] d IH]; cbn; [done|].
  destruct (String.eqb k' k); [by apply sublist_cons|by apply sublist_skip].
Qed.

Lemma close_position_shrinks (sym : string) (st : State) :
  Time (close_position sym st) = Time st
  ∧ second_order_positions (close_position sym st) `sublist_of` second_order_positions st.
Proof.
  unfold close_position. destruct (Invested st sym); cbn; [|done].
  split; [done|apply del_sublist].
Qed.

Lemma close_all_shrinks (l : list string) (st : State) :
  Time (fold_left (fun st sym => close_position sym st) l st) = Time st
  ∧ second_order_positions (fold_left (fun st sym => close_position sym st) l st)
    `sublist_of` second_order_positions st.
Proof.
  revert st. induction l as [|x l IH]; intros st; cbn [fold_left]; [done|].
  destruct (IH (close_position x st)) as [T S].
  destruct (close_position_shrinks x st) as [T' S'].
  split; [congruence|by etrans].
Qed.

Lemma positions_to_close_shrinks (st st' : State) (sym : string) :
  Time st' = Time st →
  second_order_positions st' `sublist_of` second_order_positions st →
  sym ∈ positions_to_close st' → sym ∈ positions_to_close st.
Proof.
  intros HT HS. unfold positions_to_close. rewrite HT.
  intros H. apply list_elem_of_In, in_map_iff in H as ([k info] & <- & H).
  apply list_elem_of_In, list_elem_of_filter in H as [Hdue H].
  apply list_elem_of_In, in_map_iff. exists (k, info). split; [done|].
  apply list_elem_of_In, list_elem_of_filter. split; [exact Hdue|].
  by eapply elem_of_sublist.
Qed.

Lemma close_all_closed (l : list string) (st : State) :
  Forall (fun sym => Invested st sym = false) l →
  fold_left (fun st sym => close_position sym st) l st = st.
Proof.
  induction 1 as [|x l Hx Hl IH]; cbn [fold_left]; [done|].
  by rewrite close_position_closed.
Qed.

(** The sweep is idempotent: run again at the same time (the engine calls
    it once per security), it changes nothing more. *)
Theorem sweep_is_idempotent (symbol symbol' : string) (st : State) :
  OnEndOfDay symbol' (OnEndOfDay symbol st) = OnEndOfDay symbol st.
Proof.
  unfold OnEndOfDay at 1. apply close_all_closed.
  apply Forall_forall. intros sym Hsym.
  destruct (close_all_shrinks (positions_to_close st) st) as [HT HS].
  apply (positions_to_close_shrinks st _ sym HT HS) in Hsym.
  unfold OnEndOfDay. apply close_all_not_invested. by left.
Qed.

Lemma close_position_other (x sym : string) (st : State) :
  x ≠ sym →
  Quantity (close_position x st) sym = Quantity st sym
  ∧ Py.get sym (second_order_positions (close_position x st))
    = Py.get sym (second_order_positions st).
Proof.
  intros Hne. unfold close_position. destruct (Invested st x); [|done].
  unfold Quantity. cbn. rewrite lookup_insert_ne by done.
  by rewrite get_del_ne.
Qed.

(** The sweep touches only positions whose holding period is over 5 days:
    for any other ticker, tracked or not, the quantity held and the
    tracked entry are what they were. *)
Theorem sweep_touches_only_due_positions (symbol sym : string) (st : State) :
  sym ∉ positions_to_close st →
  Quantity (OnEndOfDay symbol st) sym = Quantity st sym
  ∧ Py.get sym (second_order_positions (OnEndOfDay symbol st))
    = Py.get sym (second_order_positions st).
Proof.
  unfold OnEndOfDay. generalize (positions_to_close st). intros l Hl.
  revert st. induction l as [|x l IH]; intros st; cbn [fold_left]; [done|].
  apply not_elem_of_cons in Hl as [Hne Hl].
  destruct (IH Hl (close_position x st)) as [Q G].
  destruct (close_position_other x sym st) as [Q' G']; [congruence|].
  split; congruence.
Qed.

Lemma sweep_touches_only_due_positions_witness :
  ("SWKS" ∉ positions_to_close after_day_five)
  ∧ (Quantity (OnEndOfDay "SPY" after_day_five) "SWKS" = Quantity after_day_five "SWKS"
     ∧ Py.get "SWKS" (second_order_positions (OnEndOfDay "SPY" after_day_five))
       = Py.get "SWKS" (second_order_positions after_day_five)).
Proof.
  assert (H : "SWKS" ∉ positions_to_close after_day_five).
  { apply (bool_decide_unpack _). vm_compute. exact I. }
  split; [exact H|].
  apply (sweep_touches_only_due_positions "SPY" "SWKS" after_day_five). exact H.
Defined.

End SweepMore.

(* ===================================================================== *)
(** * More on event detection *)
(* ===================================================================== *)

Section DetectionMore.
Import Algo.

Lemma fold_left_fixed {X : Type} (f : State → X → State) (l : list X) (st : State) :
  Forall (fun x => f st x = st) l → fold_left f l st = st.
Proof.
  induction 1 as [|x l Hx Hl IH]; cbn [fold_left]; [done|]. by rewrite Hx.
Qed.

(** Without an intraday move there is nothing to do: when the rule fires
    on no primary mover (no bar in the slice, or an unrealised return of
    at most 5 percent in absolute value), the data callback returns the
    state unchanged, the log included. *)
Theorem OnData_without_event (eng : Engine) (data : Slice) (st : State) :
  Forall (fun symbol => intraday_fires eng data st symbol = false) (primary_movers st) →
  OnData eng data st = st.
Proof.
  intros H. unfold OnData. apply fold_left_fixed.
  eapply Forall_impl; [exact H|]. intros symbol. unfold intraday_fires, has_bar.
  destruct (ContainsKey data symbol); cbn [negb andb]; [|done].
  destruct (Py.mem symbol (slice_bars data)); cbn [andb]; [|done].
  by intros ->.
Qed.

Lemma OnData_without_event_witness :
  Forall (fun symbol => intraday_fires both_fire morning_slice (Initialize 0) symbol = false)
    (primary_movers (Initialize 0))
  ∧ OnData both_fire morning_slice (Initialize 0) = Initialize 0.
Proof.
  assert (H : Forall (fun symbol =>
                        intraday_fires both_fire morning_slice (Initialize 0) symbol = false)
                (primary_movers (Initialize 0))).
  { apply (bool_decide_unpack _). vm_compute. exact I. }
  split; [exact H|].
  apply (OnData_without_event both_fire morning_slice (Initialize 0)). exact H.
Defined.

(** Likewise for the scheduled function: when no primary mover has moved
    more than 10 percent over its closes (or has no history), it returns
    the state unchanged. *)
Theorem DetectSecondOrderEffects_without_event (eng : Engine) (st : State) :
  Forall (fun symbol => multiday_fires eng st symbol = false) (primary_movers st) →
  DetectSecondOrderEffects eng st = st.
Proof.
  intros H. unfold DetectSecondOrderEffects.
  destruct (forallb _ _); [done|].
  apply fold_left_fixed.
  eapply Forall_impl; [exact H|]. intros symbol.
  unfold multiday_fires, five_day_return.
  destruct (History eng (primary_movers st) 5 symbol) as [|c cs]; [done|].
  by intros ->.
Qed.

Lemma DetectSecondOrderEffects_without_event_witness :
  Forall (fun symbol => multiday_fires (broker 40 0 flat_closes) (Initialize 0) symbol = false)
    (primary_movers (Initialize 0))
  ∧ DetectSecondOrderEffects (broker 40 0 flat_closes) (Initialize 0) = Initialize 0.
Proof.
  assert (H : Forall (fun symbol =>
                        multiday_fires (broker 40 0 flat_closes) (Initialize 0) symbol = false)
                (primary_movers (Initialize 0))).
  { apply (bool_decide_unpack _). vm_compute. exact I. }
  split; [exact H|].
  apply (DetectSecondOrderEffects_without_event (broker 40 0 flat_closes) (Initialize 0)).
  exact H.
Defined.

End DetectionMore.

(* ===================================================================== *)
(** * Which holdings the trading paths can change *)
(* ===================================================================== *)

Section Scope.
Import Algo.

Lemma keeps_quantity_refl (s : string) (st : State) : keeps_quantity s st st.
Proof. split; [apply same_settings_refl|done]. Qed.

Lemma keeps_quantity_trans (s : string) (a b c : State) :
  keeps_quantity s a b → keeps_quantity s b c → keeps_quantity s a c.
Proof.
  intros [S1 Q1] [S2 Q2]. split; [by eapply same_settings_trans|congruence].
Qed.

Lemma keeps_quantity_Debug (s : string) (m : Message) (st : State) :
  keeps_quantity s st (Debug m st).
Proof. split; [by repeat split|done]. Qed.

(** An entry for one symbol leaves every other holding as it is. *)
Lemma keeps_quantity_entry (eng : Engine) (symbol direction reason : string)
    (conf : float) (s : string) (st : State) :
  symbol ≠ s →
  keeps_quantity s st (ExecuteSecondOrderTrade eng symbol direction reason conf st).
Proof.
  intros Hne. split.
  - apply ExecuteSecondOrderTrade_trades_only.
  - unfold ExecuteSecondOrderTrade.
    destruct (Invested st symbol); [done|].
    destruct (_ <=? _)%nat; [done|].
    destruct (String.eqb direction "LONG"); [|destruct (String.eqb direction "SHORT")];
      unfold Quantity; cbn; by rewrite ?lookup_insert_ne.
Qed.

Lemma keeps_quantity_trade_each (eng : Engine) (data : Slice) (tickers : list string)
    (direction reason : string) (conf : float) (s : string) (st : State) :
  s ∉ tickers →
  keeps_quantity s st (trade_each eng data tickers direction reason conf st).
Proof.
  unfold trade_each. revert st.
  induction tickers as [|x l IH]; intros st Hs; cbn [fold_left];
    [apply keeps_quantity_refl|].
  apply not_elem_of_cons in Hs as [Hne Hs].
  eapply keeps_quantity_trans; [|by apply IH].
  destruct (ContainsKey data x); [|apply keeps_quantity_refl].
  apply keeps_quantity_entry. congruence.
Qed.

Lemma TriggerSecondOrderTrades_scope_core (eng : Engine) (primary_symbol : string)
    (move : float) (data : Slice) (s : string) (st : State) :
  s ∉ trigger_tickers st primary_symbol →
  Quantity (TriggerSecondOrderTrades eng primary_symbol move data st) s = Quantity st s.
Proof.
  unfold trigger_tickers, chain_of, TriggerSecondOrderTrades.
  destruct (Py.get primary_symbol (supply_chains st)) as [chain|]; [|done].
  cbn [default]. intros Hs. apply not_elem_of_app in Hs as [Hsup Hcomp].
  destruct (0 <? move)%float.
  - destruct (keeps_quantity_trade_each eng data (chain_get "suppliers" chain) "LONG"
                (primary_symbol +:+ " rally benefits supplier") 0.7 s st Hsup) as [_ Q1].
    destruct (keeps_quantity_trade_each eng data (chain_get "competitors" chain) "SHORT"
                (primary_symbol +:+ " rally hurts competitor") 0.5 s
                (trade_each eng data (chain_get "suppliers" chain) "LONG"
                   (primary_symbol +:+ " rally benefits supplier") 0.7 st) Hcomp) as [_ Q2].
    congruence.
  - destruct (keeps_quantity_trade_each eng data (chain_get "suppliers" chain) "SHORT"
                (primary_symbol +:+ " decline hurts supplier") 0.6 s st Hsup) as [_ Q1].
    destruct (keeps_quantity_trade_each eng data (chain_get "competitors" chain) "LONG"
                (primary_symbol +:+ " decline helps competitor") 0.4 s
                (trade_each eng data (chain_get "suppliers" chain) "SHORT"
                   (primary_symbol +:+ " decline hurts supplier") 0.6 st) Hcomp) as [_ Q2].
    congruence.
Qed.

(** The intraday path trades suppliers and competitors of the primary
    symbol only: the holding of any other ticker (a customer, a related
    name, the primary itself) is left as it is; a primary symbol without a
    chain moves nothing. *)
Theorem TriggerSecondOrderTrades_scope (eng : Engine) (primary_symbol : string)
    (move : float) (data : Slice) (s : string) (st : State) :
  s ∉ trigger_tickers st primary_symbol →
  Quantity (TriggerSecondOrderTrades eng primary_symbol move data st) s = Quantity st s.
Proof. exact (TriggerSecondOrderTrades_scope_core eng primary_symbol move data s st). Qed.

Lemma TriggerSecondOrderTrades_scope_witness :
  ("MSFT" ∉ trigger_tickers (Initialize 0) "NVDA")
  ∧ Quantity (TriggerSecondOrderTrades (broker 40 0 flat_closes) "NVDA" 0.06
                {| slice_keys := ["NVDA"; "TSM"; "MSFT"; "AMD"];
                   slice_bars := ["NVDA"; "TSM"; "MSFT"; "AMD"] |} (Initialize 0)) "MSFT"
    = Quantity (Initialize 0) "MSFT".
Proof.
  assert (H : "MSFT" ∉ trigger_tickers (Initialize 0) "NVDA").
  { apply (bool_decide_unpack _). vm_compute. exact I. }
  split; [exact H|].
  apply (TriggerSecondOrderTrades_scope (broker 40 0 flat_closes) "NVDA" 0.06 _ "MSFT"
           (Initialize 0)).
  exact H.
Defined.

Lemma chain_get_listed (category : string) (chain : list (string * list string)) (x : string) :
  x ∈ chain_get category chain → x ∈ chain_tickers chain.
Proof.
  unfold chain_get, chain_tickers.
  destruct (Py.get category chain) as [tickers|] eqn:E; cbn [default];
    [|by intros H; apply elem_of_nil in H].
  intros Hx. apply get_elem_of in E.
  apply list_elem_of_In, in_flat_map. exists (category, tickers).
  split; by apply list_elem_of_In.
Qed.

Lemma chain_listed (chains : list (string * list (string * list string)))
    (primary_symbol : string) (chain : list (string * list string)) (x : string) :
  Py.get primary_symbol chains = Some chain →
  x ∈ chain_tickers chain → x ∈ all_related chains.
Proof.
  intros E Hx. apply get_elem_of in E. unfold all_related.
  apply list_elem_of_In, in_flat_map. exists (primary_symbol, chain).
  split; by apply list_elem_of_In.
Qed.

Lemma keeps_quantity_Trigger (eng : Engine) (primary_symbol : string) (move : float)
    (data : Slice) (s : string) (st : State) :
  s ∉ all_related (supply_chains st) →
  keeps_quantity s st (TriggerSecondOrderTrades eng primary_symbol move data st).
Proof.
  intros Hs. split; [apply TriggerSecondOrderTrades_trades_only|].
  apply TriggerSecondOrderTrades_scope_core. intros Hin. apply Hs.
  unfold trigger_tickers, chain_of in Hin.
  destruct (Py.get primary_symbol (supply_chains st)) as [chain|] eqn:E; cbn [default] in Hin.
  - apply (chain_listed _ primary_symbol chain s E).
    apply elem_of_app in Hin as [H|H]; by eapply chain_get_listed.
  - apply elem_of_app in Hin as [H|H]; by apply elem_of_nil in H.
Qed.

Lemma keeps_quantity_fold {X : Type} (s : string) (f : State → X → State)
    (l : list X) (st : State) (P : State → Prop) :
  (∀ a b, P a → same_settings a b → P b) →
  (∀ st x, P st → keeps_quantity s st (f st x)) →
  P st → keeps_quantity s st (fold_left f l st).
Proof.
  intros HP Hf. revert st. induction l as [|x l IH]; intros st Hst; cbn [fold_left];
    [apply keeps_quantity_refl|].
  destruct (Hf st x Hst) as [S Q].
  eapply keeps_quantity_trans; [by split|]. apply IH. by eapply HP.
Qed.

Lemma unlisted_transfers (s : string) (a b : State) :
  s ∉ all_related (supply_chains a) → same_settings a b →
  s ∉ all_related (supply_chains b).
Proof. intros H (E & _). by rewrite E. Qed.

Lemma keeps_quantity_Analyze (eng : Engine) (primary_symbol : string) (move : float)
    (s : string) (st : State) :
  s ∉ all_related (supply_chains st) →
  keeps_quantity s st (AnalyzeSecondOrderOpportunities eng primary_symbol move st).
Proof.
  intros Hs. unfold AnalyzeSecondOrderOpportunities.
  destruct (Py.get primary_symbol (supply_chains st)) as [chain|] eqn:E;
    [|apply keeps_quantity_refl].
  assert (Hchain : s ∉ chain_tickers chain).
  { intros Hin. apply Hs. by eapply chain_listed. }
  clear E Hs. unfold chain_tickers in Hchain. revert st.
  induction chain as [|[category tickers] chain IH]; intros st; cbn [fold_left];
    [apply keeps_quantity_refl|].
  cbn [flat_map snd] in Hchain. apply not_elem_of_app in Hchain as [Hhere Hrest].
  eapply keeps_quantity_trans; [|by apply IH].
  cbn [fst snd]. clear IH Hrest. revert st.
  induction tickers as [|x l IHl]; intros st; cbn [fold_left];
    [apply keeps_quantity_refl|].
  apply not_elem_of_cons in Hhere as [Hne Hl].
  eapply keeps_quantity_trans; [|by apply IHl].
  unfold analyze_ticker.
  destruct (History eng [x] 20 x) as [|c cs]; [apply keeps_quantity_refl|].
  destruct (iloc_neg 1 (c :: cs)); [|apply keeps_quantity_refl].
  destruct (iloc_neg 5 (c :: cs)); [|apply keeps_quantity_refl].
  match goal with |- context [if ?b then _ else st] => destruct b end;
    [|apply keeps_quantity_refl].
  apply keeps_quantity_entry. congruence.
Qed.

(** Both detection callbacks change the holdings of tickers listed in some
    supply chain only; a ticker that no chain lists keeps its quantity. *)
Lemma keeps_quantity_OnData (eng : Engine) (data : Slice) (s : string) (st : State) :
  s ∉ all_related (supply_chains st) →
  keeps_quantity s st (OnData eng data st).
Proof.
  intros Hs. unfold OnData.
  apply (keeps_quantity_fold s _ _ st (fun st => s ∉ all_related (supply_chains st)));
    [apply unlisted_transfers| |exact Hs].
  intros st' x Hs'.
  destruct (negb (ContainsKey data x)); [apply keeps_quantity_refl|].
  destruct (Py.mem x (slice_bars data)); [|apply keeps_quantity_refl].
  destruct (0.05 <? _)%float; [|apply keeps_quantity_refl].
  eapply keeps_quantity_trans; [apply keeps_quantity_Debug|].
  by apply keeps_quantity_Trigger.
Qed.

Lemma keeps_quantity_Detect (eng : Engine) (s : string) (st : State) :
  s ∉ all_related (supply_chains st) →
  keeps_quantity s st (DetectSecondOrderEffects eng st).
Proof.
  intros Hs. unfold DetectSecondOrderEffects.
  destruct (forallb _ _); [apply keeps_quantity_refl|].
  apply (keeps_quantity_fold s _ _ st (fun st => s ∉ all_related (supply_chains st)));
    [apply unlisted_transfers| |exact Hs].
  intros st' x Hs'.
  destruct (History eng (primary_movers st) 5 x) as [|c cs]; [apply keeps_quantity_refl|].
  destruct (0.10 <? _)%float; [|apply keeps_quantity_refl].
  eapply keeps_quantity_trans; [apply keeps_quantity_Debug|].
  by apply keeps_quantity_Analyze.
Qed.

Lemma close_all_keeps_flat (l : list string) (s : string) (st : State) :
  Invested st s = false →
  Invested (fold_left (fun st sym => close_position sym st) l st) s = false.
Proof. intros H. apply close_all_not_invested. by right. Qed.

Lemma unlisted_tickers_stay_flat_core (evs : list Event) (s : string) (st : State) :
  forallb is_callback evs = true →
  s ∉ all_related (supply_chains st) →
  Invested st s = false →
  Invested (run evs st) s = false.
Proof.
  unfold run. revert st. induction evs as [|ev evs IH]; intros st Hcb Hs Hflat; [done|].
  cbn [forallb] in Hcb. apply andb_prop in Hcb as [Hev Hcb]. cbn [fold_left].
  assert (Hstep : same_settings st (step ev st) ∧ Invested (step ev st) s = false).
  { destruct ev as [eng data|eng|symbol|eng symbol direction reason conf|now].
    - destruct (keeps_quantity_OnData eng data s st Hs) as [S Q].
      split; [exact S|]. unfold Invested in *. cbn [step]. by rewrite Q.
    - destruct (keeps_quantity_Detect eng s st Hs) as [S Q].
      split; [exact S|]. unfold Invested in *. cbn [step]. by rewrite Q.
    - split; [apply OnEndOfDay_keeps_cap|]. by apply close_all_keeps_flat.
    - discriminate.
    - split; [by repeat split|done]. }
  destruct Hstep as [S F]. apply IH; [exact Hcb| |exact F].
  by eapply unlisted_transfers.
Qed.

(** A ticker that no supply chain lists is never bought or sold short by
    the callbacks: flat before, it is flat after any sequence of them. *)
Theorem unlisted_tickers_stay_flat (evs : list Event) (s : string) (st : State) :
  forallb is_callback evs = true →
  s ∉ all_related (supply_chains st) →
  Invested st s = false →
  Invested (run evs st) s = false.
Proof. exact (unlisted_tickers_stay_flat_core evs s st). Qed.

Lemma unlisted_tickers_stay_flat_witness :
  forallb is_callback through_day_six = true
  ∧ ("AAPL" ∉ all_related (supply_chains (Initialize 0)))
  ∧ Invested (Initialize 0) "AAPL" = false
  ∧ Invested (run through_day_six (Initialize 0)) "AAPL" = false.
Proof.
  assert (H1 : forallb is_callback through_day_six = true) by reflexivity.
  assert (H2 : "AAPL" ∉ all_related (supply_chains (Initialize 0))).
  { apply (bool_decide_unpack _). vm_compute. exact I. }
  assert (H3 : Invested (Initialize 0) "AAPL" = false) by (vm_compute; reflexivity).
  split; [exact H1|]. split; [exact H2|]. split; [exact H3|].
  exact (unlisted_tickers_stay_flat through_day_six "AAPL" (Initialize 0) H1 H2 H3).
Defined.

End Scope.

(* ===================================================================== *)
(** * The intraday rule reads the holdings of the primary movers *)
(* ===================================================================== *)

Section IntradayRule.
Import Algo.

Lemma only_logged_refl (st : State) : only_logged st st.
Proof. split; [apply same_settings_refl|done]. Qed.

Lemma only_logged_trans (a b c : State) :
  only_logged a b → only_logged b c → only_logged a c.
Proof.
  intros (S1 & T1 & P1 & D1 & O1) (S2 & T2 & P2 & D2 & O2).
  split; [by eapply same_settings_trans|]. repeat split; congruence.
Qed.

Lemma Invested_false_flat (st : State) (s : string) :
  Invested st s = false → default 0 (Portfolio st !! s) = 0.
Proof.
  unfold Invested, Quantity. intros H. apply negb_false_iff in H. by apply Z.eqb_eq.
Qed.

Lemma OnData_needs_a_held_primary_core (eng : Engine) (data : Slice) (st : State) :
  flat_reports_zero eng →
  Forall (fun s => is_Some (Py.get s (supply_chains st)) → Invested st s = false)
    (primary_movers st) →
  only_logged st (OnData eng data st).
Proof.
  intros Hzero Hflat. unfold OnData.
  revert Hflat. generalize (primary_movers st). intros movers Hflat.
  assert (G : ∀ st', only_logged st st' →
    only_logged st (fold_left
      (fun st symbol =>
         if negb (ContainsKey data symbol) then st
         else if Py.mem symbol (slice_bars data) then
           let daily_return := UnrealizedProfitPercent eng (Portfolio st) symbol in
           if (0.05 <? abs daily_return)%float then
             let st := Debug (PrimaryEventDetected symbol daily_return) st in
             TriggerSecondOrderTrades eng symbol daily_return data st
           else st
         else st) movers st')); [|apply G, only_logged_refl].
  induction Hflat as [|x l Hx Hl IH]; intros st' Hst'; cbn [fold_left]; [exact Hst'|].
  apply IH. eapply only_logged_trans; [exact Hst'|].
  destruct Hst' as ((Hchains & _) & _ & HP & _).
  destruct (negb (ContainsKey data x)); [apply only_logged_refl|].
  destruct (Py.mem x (slice_bars data)); [|apply only_logged_refl].
  cbn zeta. rewrite HP.
  destruct (Py.get x (supply_chains st)) as [chain|] eqn:E.
  - rewrite (Hzero (Portfolio st) x); [apply only_logged_refl|].
    apply Invested_false_flat, Hx. by eexists.
  - destruct (0.05 <? _)%float; [|apply only_logged_refl].
    unfold TriggerSecondOrderTrades. cbn [supply_chains Debug with_debug].
    rewrite Hchains, E. by repeat split.
Qed.

(** The intraday rule looks at the unrealised profit of the holding of a
    primary mover.  With an engine that reports none on a flat holding,
    and with every primary mover that has a supply chain flat, the data
    callback opens no position, places no order and leaves every holding
    as it is: at most it logs events of movers that have no chain. *)
Theorem OnData_needs_a_held_primary (eng : Engine) (data : Slice) (st : State) :
  flat_reports_zero eng →
  Forall (fun s => is_Some (Py.get s (supply_chains st)) → Invested st s = false)
    (primary_movers st) →
  only_logged st (OnData eng data st).
Proof. exact (OnData_needs_a_held_primary_core eng data st). Qed.

Lemma broker_flat_reports_zero (lot : Z) (unrealized : float)
    (closes : string → list float) :
  flat_reports_zero (broker lot unrealized closes).
Proof. intros p s H. cbn. by rewrite H. Qed.

Lemma Initialize_chain_owners_flat (start : Z) :
  Forall (fun s => is_Some (Py.get s (supply_chains (Initialize start))) →
                   Invested (Initialize start) s = false)
    (primary_movers (Initialize start)).
Proof. apply Forall_forall. intros s _ _. apply Initialize_flat. Qed.

Lemma OnData_needs_a_held_primary_witness :
  flat_reports_zero both_fire
  ∧ Forall (fun s => is_Some (Py.get s (supply_chains (Initialize 0))) →
                     Invested (Initialize 0) s = false)
      (primary_movers (Initialize 0))
  ∧ only_logged (Initialize 0) (OnData both_fire morning_slice (Initialize 0)).
Proof.
  split; [apply broker_flat_reports_zero|].
  split; [apply Initialize_chain_owners_flat|].
  apply (OnData_needs_a_held_primary both_fire morning_slice (Initialize 0)).
  - apply broker_flat_reports_zero.
  - apply Initialize_chain_owners_flat.
Defined.

(** In a run of callbacks the intraday path stays closed for good: when
    the primary movers that have a chain are listed in no chain and start
    flat, then after any sequence of callbacks, with an engine that
    reports no unrealised profit on a flat holding, the data callback
    opens no position; every entry comes from the scheduled function. *)
Theorem data_callback_never_trades (evs : list Event) (eng : Engine) (data : Slice)
    (st : State) :
  forallb is_callback evs = true →
  chain_owners_apart st →
  flat_reports_zero eng →
  only_logged (run evs st) (OnData eng data (run evs st)).
Proof.
  intros Hcb Howners Hzero.
  destruct (run_keeps_cap evs st) as [(Hchains & Hmovers & _) _].
  apply OnData_needs_a_held_primary_core; [exact Hzero|].
  rewrite Hmovers, Hchains.
  eapply Forall_impl; [exact Howners|]. intros s Hs Hsome.
  destruct (Hs Hsome) as [Hunlisted Hflat].
  by apply unlisted_tickers_stay_flat_core.
Qed.

Lemma Initialize_chain_owners_apart : chain_owners_apart (Initialize 0).
Proof.
  assert (D : Forall (fun s => is_Some (Py.get s (supply_chains (Initialize 0))) →
                               s ∉ all_related (supply_chains (Initialize 0)))
                (primary_movers (Initialize 0))).
  { apply (bool_decide_unpack _). vm_compute. exact I. }
  eapply Forall_impl; [exact D|]. intros s Hs Hsome.
  split; [by apply Hs|apply Initialize_flat].
Qed.

Lemma data_callback_never_trades_witness :
  forallb is_callback through_day_six = true
  ∧ chain_owners_apart (Initialize 0)
  ∧ flat_reports_zero both_fire
  ∧ only_logged (run through_day_six (Initialize 0))
      (OnData both_fire morning_slice (run through_day_six (Initialize 0))).
Proof.
  assert (H1 : forallb is_callback through_day_six = true) by reflexivity.
  split; [exact H1|].
  split; [apply Initialize_chain_owners_apart|].
  split; [apply broker_flat_reports_zero|].
  apply (data_callback_never_trades through_day_six both_fire morning_slice (Initialize 0) H1).
  - apply Initialize_chain_owners_apart.
  - apply broker_flat_reports_zero.
Defined.

End IntradayRule.

(* ===================================================================== *)
(** * More on entries *)
(* ===================================================================== *)

Section EntryMore.
Import Algo.

(** The quantity on the stop order of an entry.  For a LONG entry it is
    the holding negated, so the order offsets the holding; for a SHORT
    entry it is the holding's own signed quantity, not its negation, so
    for a holding sold short the order is a sell as well. *)
Theorem stop_order_quantities (eng : Engine) (symbol reason : string) (conf : float)
    (st : State) :
  Invested st symbol = false →
  (current_positions st < max_positions st)%nat →
  orders (ExecuteSecondOrderTrade eng symbol "LONG" reason conf st)
  = orders st
    ++ [ {| order_symbol := symbol;
            order_quantity :=
              - Quantity (ExecuteSecondOrderTrade eng symbol "LONG" reason conf st) symbol;
            stop_price := (Price eng symbol * 0.95)%float |} ]
  ∧ orders (ExecuteSecondOrderTrade eng symbol "SHORT" reason conf st)
    = orders st
      ++ [ {| order_symbol := symbol;
              order_quantity :=
                Quantity (ExecuteSecondOrderTrade eng symbol "SHORT" reason conf st) symbol;
              stop_price := (Price eng symbol * 1.05)%float |} ].
Proof.
  intros Hflat Hroom. unfold ExecuteSecondOrderTrade.
  rewrite Hflat, (proj2 (Nat.leb_gt _ _) Hroom).
  split; cbn; unfold Quantity; cbn; by rewrite !lookup_insert_eq.
Qed.

Lemma stop_order_quantities_witness :
  Invested (Initialize 0) "GOOGL" = false
  ∧ (current_positions (Initialize 0) < max_positions (Initialize 0))%nat
  ∧ (orders (ExecuteSecondOrderTrade (broker 40 0 flat_closes) "GOOGL" "LONG" "r" 0.5
               (Initialize 0))
     = orders (Initialize 0)
       ++ [ {| order_symbol := "GOOGL";
               order_quantity :=
                 - Quantity (ExecuteSecondOrderTrade (broker 40 0 flat_closes) "GOOGL"
                               "LONG" "r" 0.5 (Initialize 0)) "GOOGL";
               stop_price := (Price (broker 40 0 flat_closes) "GOOGL" * 0.95)%float |} ]
     ∧ orders (ExecuteSecondOrderTrade (broker 40 0 flat_closes) "GOOGL" "SHORT" "r" 0.5
                 (Initialize 0))
       = orders (Initialize 0)
         ++ [ {| order_symbol := "GOOGL";
                 order_quantity :=
                   Quantity (ExecuteSecondOrderTrade (broker 40 0 flat_closes) "GOOGL"
                               "SHORT" "r" 0.5 (Initialize 0)) "GOOGL";
                 stop_price := (Price (broker 40 0 flat_closes) "GOOGL" * 1.05)%float |} ]).
Proof.
  assert (H1 : Invested (Initialize 0) "GOOGL" = false) by (vm_compute; reflexivity).
  assert (H2 : (current_positions (Initialize 0) < max_positions (Initialize 0))%nat)
    by (vm_compute; lia).
  split; [exact H1|]. split; [exact H2|].
  exact (stop_order_quantities (broker 40 0 flat_closes) "GOOGL" "r" 0.5 (Initialize 0) H1 H2).
Defined.

(** An entry whose direction is neither "LONG" nor "SHORT" trades nothing
    (no holding changes, no order, no log line) and yet, once past the two
    guards, is recorded in [second_order_positions]. *)
Theorem unknown_direction_is_tracked_untraded (eng : Engine)
    (symbol direction reason : string) (conf : float) (st : State) :
  String.eqb direction "LONG" = false →
  String.eqb direction "SHORT" = false →
  Invested st symbol = false →
  (current_positions st < max_positions st)%nat →
  ExecuteSecondOrderTrade eng symbol direction reason conf st
  = with_positions
      (Py.set symbol (tracked st direction reason conf) (second_order_positions st)) st
  ∧ Py.get symbol
      (second_order_positions (ExecuteSecondOrderTrade eng symbol direction reason conf st))
    = Some (tracked st direction reason conf).
Proof.
  intros HL HS Hflat Hroom. unfold ExecuteSecondOrderTrade.
  rewrite Hflat, (proj2 (Nat.leb_gt _ _) Hroom), HL, HS.
  split; [reflexivity|]. cbn. apply get_set_eq.
Qed.

Lemma unknown_direction_is_tracked_untraded_witness :
  ExecuteSecondOrderTrade (broker 40 0 flat_closes) "GOOGL" "long" "r" 0.5 (Initialize 0)
  = with_positions
      (Py.set "GOOGL" (tracked (Initialize 0) "long" "r" 0.5)
         (second_order_positions (Initialize 0))) (Initialize 0)
  ∧ Py.get "GOOGL"
      (second_order_positions
         (ExecuteSecondOrderTrade (broker 40 0 flat_closes) "GOOGL" "long" "r" 0.5
            (Initialize 0)))
    = Some (tracked (Initialize 0) "long" "r" 0.5).
Proof.
  apply (unknown_direction_is_tracked_untraded (broker 40 0 flat_closes) "GOOGL" "long"
           "r" 0.5 (Initialize 0)).
  - reflexivity.
  - reflexivity.
  - vm_compute. reflexivity.
  - vm_compute. lia.
Defined.

(** An accepted entry starts the holding period at the current time: the
    ticker's entry in [second_order_positions] is replaced by one with
    [entry_time] now (a stale entry of a ticker that is no longer held does
    not age the new position), and the entries of other tickers are kept. *)
Theorem entry_restarts_holding_period (eng : Engine)
    (symbol direction reason other : string) (conf : float) (st : State) :
  Invested st symbol = false →
  (current_positions st < max_positions st)%nat →
  String.eqb symbol other = false →
  Py.get symbol
    (second_order_positions (ExecuteSecondOrderTrade eng symbol direction reason conf st))
  = Some {| entry_time := Time st; direction := direction;
            reason := reason; confidence := conf |}
  ∧ Py.get other
      (second_order_positions (ExecuteSecondOrderTrade eng symbol direction reason conf st))
    = Py.get other (second_order_positions st).
Proof.
  intros Hflat Hroom Hne. apply String.eqb_neq in Hne.
  destruct (ExecuteSecondOrderTrade_accepted eng symbol direction reason conf st Hflat Hroom)
    as (Hpos & _ & _).
  rewrite Hpos. split; [apply get_set_eq|by apply get_set_ne].
Qed.

Lemma entry_restarts_holding_period_witness :
  Invested swks_stopped_out "SWKS" = false
  ∧ (current_positions swks_stopped_out < max_positions swks_stopped_out)%nat
  ∧ String.eqb "SWKS" "AVGO" = false
  ∧ Py.get "SWKS" (second_order_positions swks_stopped_out)
    = Some {| entry_time := clock 0 9 45; direction := "LONG";
              reason := "Lagging suppliers to AAPL"; confidence := 0.6 |}
  ∧ (Py.get "SWKS"
       (second_order_positions
          (ExecuteSecondOrderTrade (broker 40 0 flat_closes) "SWKS" "SHORT"
             "AAPL decline hurts supplier" 0.6 swks_stopped_out))
     = Some {| entry_time := Time swks_stopped_out; direction := "SHORT";
               reason := "AAPL decline hurts supplier"; confidence := 0.6 |}
     ∧ Py.get "AVGO"
         (second_order_positions
            (ExecuteSecondOrderTrade (broker 40 0 flat_closes) "SWKS" "SHORT"
               "AAPL decline hurts supplier" 0.6 swks_stopped_out))
       = Py.get "AVGO" (second_order_positions swks_stopped_out)).
Proof.
  assert (H1 : Invested swks_stopped_out "SWKS" = false) by (vm_compute; reflexivity).
  assert (H2 : (current_positions swks_stopped_out < max_positions swks_stopped_out)%nat)
    by (vm_compute; lia).
  assert (H3 : String.eqb "SWKS" "AVGO" = false) by reflexivity.
  split; [exact H1|]. split; [exact H2|]. split; [exact H3|].
  split; [vm_compute; reflexivity|].
  exact (entry_restarts_holding_period (broker 40 0 flat_closes) "SWKS" "SHORT"
           "AAPL decline hurts supplier" "AVGO" 0.6 swks_stopped_out H1 H2 H3).
Defined.

End EntryMore.

(* ===================================================================== *)
(** * The supply chain mapper *)
(* ===================================================================== *)

Section Mapper.
Import SupplyChainMapper.

(** The impact score is one of the table's weights or the default: it
    always lies between 0.3 and 0.8, well inside the documented range
    from 0 to 1, whatever the tickers and the relationship type. *)
Theorem impact_score_range (primary_ticker affected_ticker relationship_type : string) :
  (0.3 <=? calculate_impact_score primary_ticker affected_ticker relationship_type)%float
  = true
  ∧ (calculate_impact_score primary_ticker affected_ticker relationship_type <=? 0.8)%float
    = true.
Proof.
  unfold calculate_impact_score, weights. cbn [Py.get].
  repeat (match goal with
          | |- context [String.eqb ?a relationship_type] =>
              destruct (String.eqb a relationship_type)
          end; [split; reflexivity|]).
  split; reflexivity.
Qed.

Lemma lower_char_idempotent (c : Ascii.ascii) :
  Py.lower_char (Py.lower_char c) = Py.lower_char c.
Proof. destruct c as [[] [] [] [] [] [] [] []]; reflexivity. Qed.

Lemma lower_idempotent (s : string) : Py.lower (Py.lower s) = Py.lower s.
Proof.
  induction s as [|c s IH]; cbn [Py.lower]; [done|].
  by rewrite lower_char_idempotent, IH.
Qed.

(** The event type is matched without regard to case: two event types
    that differ in the case of their letters only affect the same
    tickers, in any database. *)
Theorem affected_tickers_ignore_case
    (database : list (string * list (string * list string)))
    (primary_ticker event_type event_type' : string) :
  Py.lower event_type = Py.lower event_type' →
  get_affected_tickers_in database primary_ticker event_type
  = get_affected_tickers_in database primary_ticker event_type'.
Proof. intros H. unfold get_affected_tickers_in. by rewrite H. Qed.

Lemma affected_tickers_ignore_case_witness :
  Py.lower "Q3 EARNINGS_BEAT" = Py.lower "q3 Earnings_Beat"
  ∧ get_affected_tickers_in relationships "NVDA" "Q3 EARNINGS_BEAT"
    = get_affected_tickers_in relationships "NVDA" "q3 Earnings_Beat".
Proof.
  assert (H : Py.lower "Q3 EARNINGS_BEAT" = Py.lower "q3 Earnings_Beat") by reflexivity.
  split; [exact H|].
  apply (affected_tickers_ignore_case relationships "NVDA" _ _ H).
Defined.

(** The result names no category but "positive" and "negative": it is
    empty (unknown ticker, or none of the three keywords in the event
    type) or has exactly these two keys. *)
Theorem affected_tickers_shape
    (database : list (string * list (string * list string)))
    (primary_ticker event_type : string) :
  get_affected_tickers_in database primary_ticker event_type = []
  ∨ ∃ positive negative,
      get_affected_tickers_in database primary_ticker event_type
      = [ ("positive", positive); ("negative", negative) ]
      ∨ get_affected_tickers_in database primary_ticker event_type
        = [ ("negative", negative); ("positive", positive) ].
Proof.
  unfold get_affected_tickers_in.
  destruct (Py.get primary_ticker database) as [base|]; [|by left].
  destruct (Py.contains "earnings_beat" _); [right; eexists _, _; left; reflexivity|].
  destruct (Py.contains "supply_disruption" _); [right; eexists _, _; right; reflexivity|].
  destruct (Py.contains "innovation" _); [right; eexists _, _; left; reflexivity|].
  by left.
Qed.

Lemma relations_get_listed (category : string) (base : list (string * list string))
    (x : string) :
  x ∈ relations_get category base → x ∈ flat_map snd base.
Proof. apply chain_get_listed. Qed.

(** No ticker is invented: every ticker in the result is listed, under
    some category, among the relations of the primary ticker. *)
Theorem affected_tickers_are_relations
    (database : list (string * list (string * list string)))
    (primary_ticker event_type : string) :
  Forall
    (fun item : string * list string =>
       Forall (fun x => x ∈ flat_map snd (default [] (Py.get primary_ticker database)))
         item.2)
    (get_affected_tickers_in database primary_ticker event_type).
Proof.
  unfold get_affected_tickers_in.
  destruct (Py.get primary_ticker database) as [base|]; [|constructor].
  cbn [default].
  assert (H : ∀ category,
    Forall (fun x => x ∈ flat_map snd base) (relations_get category base)).
  { intros category. apply Forall_forall. intros x. apply relations_get_listed. }
  destruct (Py.contains "earnings_beat" _); [repeat constructor; apply H|].
  destruct (Py.contains "supply_disruption" _); [repeat constructor; apply H|].
  destruct (Py.contains "innovation" _); [repeat constructor; apply H|].
  constructor.
Qed.

End Mapper.
